(** * Content-management backend of the excursion site: models, admin hooks
      and template helpers ([src/apps/main])

    The development embeds [models.py], [admin.py] and
    [templatetags/utils.py] as Rocq functions and proves what the
    specification says about them.  Python exceptions are an error result,
    the database and the mutated model instance are threaded explicitly. *)

From Stdlib Require Import ZArith QArith Qround Qabs Lia Ascii String.
From stdpp Require Import gmap strings list fin_maps.

Open Scope Z_scope.

(** ** Exceptions and results *)

Inductive exn : Type :=
| AttributeError (attr : string)
| ValidationError (msg : string)
| UnidentifiedImageError
| ValueError (msg : string)
| TypeError
| IndexError
| DatabaseError.

Inductive result (A : Type) : Type :=
| Ok (a : A)
| Raise (e : exn).
Arguments Ok {A} a.
Arguments Raise {A} e.

(** ** PIL: the size computed by [Image.thumbnail]

    [_compress_image_field] hands the resizing to Pillow's
    [Image.thumbnail((max_width, max_height))].  Its size computation
    ([preserve_aspect_ratio] with the local [round_aspect]) is transcribed
    here over exact rationals where Pillow computes with floats. *)

Module PIL.

Record Image : Type := mkImage { width : Z; height : Z; mode : string }.

(** Python's [min(a, b, key=key)]: the first of the smallest. *)
Definition min_by_key (a b : Z) (key : Z -> Q) : Z :=
  if Qle_bool (key a) (key b) then a else b.

(** [max(min(math.floor(number), math.ceil(number), key=key), 1)] *)
Definition round_aspect (number : Q) (key : Z -> Q) : Z :=
  Z.max (min_by_key (Qfloor number) (Qceiling number) key) 1.

(** [None] stands for the early [return None]: the image already fits. *)
Definition preserve_aspect_ratio (self : Image) (size : Z * Z) : option (Z * Z) :=
  let '(x, y) := size in
  if (width self <=? x) && (height self <=? y) then None
  else
    let aspect := (inject_Z (width self) / inject_Z (height self))%Q in
    if Qle_bool aspect (inject_Z x / inject_Z y)%Q then
      Some (round_aspect (inject_Z y * aspect)%Q
              (fun n => Qabs (aspect - inject_Z n / inject_Z y)%Q), y)
    else
      Some (x, round_aspect (inject_Z x / aspect)%Q
                 (fun n => if n =? 0 then 0%Q
                           else Qabs (aspect - inject_Z x / inject_Z n)%Q)).

Definition resize (self : Image) (size : Z * Z) : Image :=
  {| width := fst size; height := snd size; mode := mode self |}.

(** [Image.thumbnail(size)]: in place in Python, the new image here. *)
Definition thumbnail (self : Image) (size : Z * Z) : Image :=
  match preserve_aspect_ratio self size with
  | None => self
  | Some final_size => resize self final_size
  end.

(** [Image.convert(mode)] keeps the size. *)
Definition convert (self : Image) (m : string) : Image :=
  {| width := width self; height := height self; mode := m |}.

End PIL.


(** ** pathlib: [Path(name).stem] *)

Module pathlib.

Fixpoint split (sep : ascii) (s : string) : list string :=
  match s with
  | EmptyString => [EmptyString]
  | String c s' =>
      if Ascii.eqb c sep then EmptyString :: split sep s'
      else match split sep s' with
           | [] => [String c EmptyString]
           | p :: ps => String c p :: ps
           end
  end.

(** The components of a POSIX path: empty and ["."] components are dropped. *)
Definition parts (s : string) : list string :=
  List.filter (fun p => negb (String.eqb p "") && negb (String.eqb p "."))
              (split "/" s).

(** [PurePath.name]: the final component, [""] when there is none. *)
Definition name (s : string) : string := List.last (parts s) "".

(** [str.rfind(c)] counted from position [i]; [-1] when [c] is absent. *)
Fixpoint rfind_from (c : ascii) (s : string) (i : Z) : Z :=
  match s with
  | EmptyString => -1
  | String a s' =>
      let r := rfind_from c s' (i + 1) in
      if 0 <=? r then r else if Ascii.eqb a c then i else -1
  end.

Definition rfind (c : ascii) (s : string) : Z := rfind_from c s 0.

(** [PurePath.stem]:
    [i = name.rfind('.'); name[:i] if 0 < i < len(name) - 1 else name] *)
Definition stem (s : string) : string :=
  let name := name s in
  let i := rfind "." name in
  if (0 <? i) && (i <? Z.of_nat (String.length name) - 1)
  then String.substring 0 (Z.to_nat i) name
  else name.

End pathlib.

(** [str.lower()] on the ASCII letters of a class name. *)
Definition lower_ascii (c : ascii) : ascii :=
  let n := nat_of_ascii c in
  if (65 <=? n)%nat && (n <=? 90)%nat then ascii_of_nat (n + 32) else c.

Fixpoint lower (s : string) : string :=
  match s with
  | EmptyString => EmptyString
  | String c s' => String (lower_ascii c) (lower s')
  end.

(** Whether the character [c] occurs in [s]. *)
Fixpoint occurs (c : ascii) (s : string) : bool :=
  match s with
  | EmptyString => false
  | String a s' => Ascii.eqb a c || occurs c s'
  end.

(** ** Files and model instances *)

(** How the bytes of a file were produced: as uploaded, or by
    [img.save(img_io, format="JPEG", quality=quality, optimize=optimize)]. *)
Inductive codec : Type :=
| Original
| JPEG (quality : Z) (optimize : bool).

(** The bytes of a file: the picture [Image.open] decodes from them
    ([None] when they are not an image) and their encoding. *)
Record payload : Type := mkPayload {
  decoded : option PIL.Image;
  encoding : codec
}.

(** The value of a file attribute: an upload not yet written to storage
    ([committed = false]) or a stored file. *)
Record File : Type := mkFile {
  name : string;
  content : payload;
  content_type : string;
  committed : bool
}.

Inductive Model : Type :=
| SiteSettings | Excursion | ExcursionImage | Review | FAQ | SocialLink.

#[global] Instance Model_eq_dec : EqDecision Model.
Proof. solve_decision. Defined.

Definition class_name (m : Model) : string :=
  match m with
  | SiteSettings => "SiteSettings"
  | Excursion => "Excursion"
  | ExcursionImage => "ExcursionImage"
  | Review => "Review"
  | FAQ => "FAQ"
  | SocialLink => "SocialLink"
  end.

(** Every model lives in the application [main]. *)
Definition app_label (m : Model) : string := "main".

Definition db_table (m : Model) : string :=
  app_label m +:+ "_" +:+ lower (class_name m).

(** The one upload handler of [models.py], as the value a field stores. *)
Inductive Callable : Type := fn_upload_to.

#[global] Instance Callable_eq_dec : EqDecision Callable.
Proof. solve_decision. Defined.

(** A declared field: its name and, for a file field, its [upload_to]. *)
Record Field : Type := mkField {
  field_name : string;
  field_upload_to : option Callable
}.

Definition plain (n : string) : Field := mkField n None.
Definition ImageField (n : string) (upload_to : Callable) : Field :=
  mkField n (Some upload_to).

(** [_meta.fields]: the automatic [id], then the fields as declared. *)
Definition _meta_fields (m : Model) : list Field :=
  match m with
  | SiteSettings =>
      [ plain "id"; ImageField "logo" fn_upload_to; plain "slogan";
        plain "copyright_text"; ImageField "tursab_image" fn_upload_to;
        plain "address"; plain "address_gmap"; plain "email"; plain "phone";
        plain "phone_repr"; plain "whatsapp"; plain "whatsapp_repr";
        plain "banner_link"; ImageField "banner_image" fn_upload_to ]
  | Excursion =>
      [ plain "id"; plain "title"; plain "slug"; plain "short_description";
        plain "content_md"; plain "is_published"; plain "created_at";
        plain "updated_at"; ImageField "cover" fn_upload_to;
        ImageField "cover_head" fn_upload_to ]
  | ExcursionImage =>
      [ plain "id"; plain "excursion"; plain "caption"; plain "sort_order";
        ImageField "image" fn_upload_to ]
  | Review =>
      [ plain "id"; ImageField "photo" fn_upload_to; plain "full_name";
        plain "text"; plain "is_published"; plain "created_at" ]
  | FAQ =>
      [ plain "id"; plain "question"; plain "answer"; plain "sort_order";
        plain "is_published" ]
  | SocialLink =>
      [ plain "id"; plain "url"; plain "fa_icon"; plain "title";
        plain "sort_order"; plain "is_active" ]
  end.

Definition is_file_field (f : Field) : bool :=
  match field_upload_to f with Some _ => true | None => false end.

Definition file_fields (m : Model) : list string :=
  List.map field_name (List.filter is_file_field (_meta_fields m)).

(** A model instance: its class, its primary key, its file attributes and
    its publication flag ([is_published], [is_active] for a social link).
    The text columns play no part in what is proved and are left out. *)
Record Instance : Type := mkInstance {
  cls : Model;
  pk : option Z;
  attrs : gmap string (option File);
  is_published : bool
}.

(** [getattr(self, field_name, None)] *)
Definition getattr (self : Instance) (n : string) : option File :=
  match attrs self !! n with
  | Some v => v
  | None => None
  end.

Definition setattr (self : Instance) (n : string) (v : File) : Instance :=
  {| cls := cls self; pk := pk self;
     attrs := <[n := Some v]> (attrs self);
     is_published := is_published self |}.

(** Truth value of a file attribute: [bool(self.name)]. *)
Definition truthy (field : option File) : bool :=
  match field with
  | Some f => negb (String.eqb (name f) "")
  | None => false
  end.

(** ** [models.py]: [upload_to] *)

Definition upload_to (instance : Instance) (filename : string) : string :=
  let app_label := app_label (cls instance) in
  let model_name := lower (class_name (cls instance)) in
  let field_name :=
    match List.find (fun field =>
                       bool_decide (field_upload_to field = Some fn_upload_to))
                    (_meta_fields (cls instance)) with
    | Some field => Some (field_name field)
    | None => None
    end in
  let field_name :=
    match field_name with
    | Some n => if String.eqb n "" then "file" else n
    | None => "file"
    end in
  app_label +:+ "/" +:+ model_name +:+ "/" +:+ field_name +:+ "/" +:+ filename.

(** Django's [FileField.generate_filename]: the field that received the
    upload calls its [upload_to] with the instance and the file name only. *)
Definition generate_filename (field : Field) (instance : Instance)
    (filename : string) : string :=
  match field_upload_to field with
  | Some fn_upload_to => upload_to instance filename
  | None => filename
  end.

(** ** [models.py]: [ImageCompressionMixin] *)

Definition default_max_width : Z := 1280.
Definition default_max_height : Z := 1280.
Definition default_quality : Z := 70.

(** [config.get(key, default)] on a policy dict. *)
Fixpoint config_get (config : list (string * Z)) (key : string) (default : Z) : Z :=
  match config with
  | [] => default
  | (k, v) :: rest => if String.eqb k key then v else config_get rest key default
  end.

(** [Image.open(field)] *)
Definition Image_open (field : File) : result PIL.Image :=
  match decoded (content field) with
  | Some img => Ok img
  | None => Raise UnidentifiedImageError
  end.

(** [img.save(img_io, format="JPEG", quality=quality, optimize=True)]
    wrapped in [InMemoryUploadedFile(img_io, name=new_name,
    content_type="image/jpeg", ...)]. *)
Definition InMemoryUploadedFile (img : PIL.Image) (enc : codec)
    (new_name ctype : string) : File :=
  {| name := new_name;
     content := {| decoded := Some img; encoding := enc |};
     content_type := ctype;
     committed := false |}.

Definition _compress_image_field (self : Instance) (field_name : string)
    (config : list (string * Z)) : result Instance :=
  match getattr self field_name with
  | None => Ok self
  | Some field =>
      if negb (truthy (Some field)) then Ok self
      else
        match Image_open field with
        | Raise e => Raise e
        | Ok img =>
            let img := if negb (String.eqb (PIL.mode img) "RGB")
                       then PIL.convert img "RGB" else img in
            let max_width := config_get config "max_width" default_max_width in
            let max_height := config_get config "max_height" default_max_height in
            let quality := config_get config "quality" default_quality in
            let img := PIL.thumbnail img (max_width, max_height) in
            let original_name := pathlib.stem (name field) in
            let new_name := original_name +:+ ".jpg" in
            let compressed_file :=
              InMemoryUploadedFile img (JPEG quality true) new_name "image/jpeg" in
            Ok (setattr self field_name compressed_file)
        end
  end.

(** The per-class policy maps, in the order of their [items()]. *)
Definition image_compression_config (m : Model)
  : list (string * list (string * Z)) :=
  match m with
  | SiteSettings =>
      [ ("banner", [("max_width", 1080); ("max_height", 520); ("quality", 75)]) ]
  | Excursion =>
      [ ("cover", [("max_width", 1280); ("max_height", 1280); ("quality", 75)]);
        ("cover_head", [("max_width", 1280); ("max_height", 1280); ("quality", 75)]) ]
  | ExcursionImage =>
      [ ("image", [("max_width", 1280); ("max_height", 1280); ("quality", 75)]) ]
  | _ => []
  end.

Fixpoint compress_items (items : list (string * list (string * Z)))
    (self : Instance) : result Instance :=
  match items with
  | [] => Ok self
  | (field_name, config) :: rest =>
      match _compress_image_field self field_name config with
      | Raise e => Raise e
      | Ok self' => compress_items rest self'
      end
  end.

Definition compress_images (self : Instance) : result Instance :=
  compress_items (image_compression_config (cls self)) self.

(** The picture the utility encodes: the decoded one, in RGB, cut down by
    [thumbnail] to the box the policy gives. *)
Definition processed (config : list (string * Z)) (img : PIL.Image) : PIL.Image :=
  PIL.thumbnail
    (if negb (String.eqb (PIL.mode img) "RGB") then PIL.convert img "RGB" else img)
    (config_get config "max_width" default_max_width,
     config_get config "max_height" default_max_height).

(** ** The database and Django's [Model.save] *)

(** A stored record: its file columns (with the stored file each one points
    to) and its publication flag. *)
Record Row : Type := mkRow {
  columns : gmap string (option File);
  published : bool
}.

(** One write of a record: the table, the key and the [update_fields] list. *)
Record Write : Type := mkWrite {
  w_table : string;
  w_pk : Z;
  w_update_fields : option (list string)
}.

Record World : Type := mkWorld {
  tables : gmap string (gmap Z Row);
  writes : list Write
}.

(** Code that reads and writes the database and may raise: the database
    keeps what was written before an exception. *)
Definition M (A : Type) : Type := World -> result A * World.

Definition ret {A} (a : A) : M A := fun w => (Ok a, w).
Definition raise {A} (e : exn) : M A := fun w => (Raise e, w).
Definition bind {A B} (m : M A) (k : A -> M B) : M B :=
  fun w => match m w with
           | (Ok a, w') => k a w'
           | (Raise e, w') => (Raise e, w')
           end.
Definition lift {A} (r : result A) : M A := fun w => (r, w).

Notation "x <- m ;; k" := (bind m (fun x => k))
  (at level 100, m at next level, right associativity).

Definition table (w : World) (m : Model) : gmap Z Row :=
  match tables w !! db_table m with
  | Some t => t
  | None => ∅
  end.

(** [cls.objects.exists()] *)
Definition objects_exists (m : Model) (w : World) : bool :=
  negb (bool_decide (table w m = ∅)).

Definition instance_of_row (m : Model) (k : Z) (r : Row) : Instance :=
  {| cls := m; pk := Some k; attrs := columns r; is_published := published r |}.

(** [cls.objects.all()], read as the collection of the stored records
    ([Meta.ordering] is left out). *)
Definition objects_all (m : Model) (w : World) : list Instance :=
  List.map (fun kr => instance_of_row m (fst kr) (snd kr))
           (map_to_list (table w m)).

(** [FileField.pre_save]: an upload not yet committed is stored under the
    name its field generates, and the attribute then points to that file. *)
Definition pre_save (self : Instance) (f : Field) : Instance :=
  match getattr self (field_name f) with
  | Some file =>
      if truthy (Some file) && negb (committed file) then
        setattr self (field_name f)
          {| name := generate_filename f self (name file);
             content := content file;
             content_type := content_type file;
             committed := true |}
      else self
  | None => self
  end.

Definition next_pk (t : gmap Z Row) : Z :=
  1 + List.fold_right Z.max 0 (List.map fst (map_to_list t)).

Definition elem (n : string) (l : list string) : bool :=
  List.existsb (String.eqb n) l.

(** The row an instance is written as: one column per file field. *)
Definition row_of (self : Instance) : Row :=
  {| columns := list_to_map
                  (List.map (fun n => (n, getattr self n)) (file_fields (cls self)));
     published := is_published self |}.

(** An [UPDATE] restricted to [fs]. *)
Definition update_row (self : Instance) (fs : list string) (r : Row) : Row :=
  {| columns := List.fold_right
                  (fun n cols => if elem n fs then <[n := getattr self n]> cols else cols)
                  (columns r) (file_fields (cls self));
     published := if elem "is_published" fs || elem "is_active" fs
                  then is_published self else published r |}.

Definition put (m : Model) (k : Z) (r : Row) (uf : option (list string))
    (w : World) : World :=
  {| tables := <[db_table m := <[k := r]> (table w m)]> (tables w);
     writes := writes w ++ [mkWrite (db_table m) k uf] |}.

(** [django.db.models.Model.save(update_fields=...)] on the modelled
    columns: an empty [update_fields] returns at once, unknown names are
    refused, the files of the written fields are committed, and the record
    is inserted or updated. *)
Definition Model_save (self : Instance) (update_fields : option (list string))
  : M Instance :=
  fun w =>
    match update_fields with
    | Some [] => (Ok self, w)
    | Some fs =>
        if negb (List.forallb
                   (fun n => elem n (List.map field_name (_meta_fields (cls self))))
                   fs)
        then (Raise (ValueError "The following fields do not exist in this model"), w)
        else
          let self :=
            List.fold_left pre_save
              (List.filter (fun f => is_file_field f && elem (field_name f) fs)
                           (_meta_fields (cls self)))
              self in
          match pk self with
          | None => (Raise (ValueError "Cannot force an update in save() with no primary key."), w)
          | Some k =>
              match table w (cls self) !! k with
              | None => (Raise DatabaseError, w)
              | Some r =>
                  (Ok self, put (cls self) k (update_row self fs r) (Some fs) w)
              end
          end
    | None =>
        let self :=
          List.fold_left pre_save
            (List.filter is_file_field (_meta_fields (cls self))) self in
        let k := match pk self with
                 | Some k => k
                 | None => next_pk (table w (cls self))
                 end in
        let self := {| cls := cls self; pk := Some k; attrs := attrs self;
                       is_published := is_published self |} in
        (Ok self, put (cls self) k (row_of self) None w)
    end.

(** ** Method resolution and [save] *)

(** The classes that define or inherit [save]. *)
Inductive Class : Type :=
| models_Model
| ImageCompressionMixin
| model_class (m : Model).

(** The bases of each model class, in the order of the [class] statement. *)
Definition bases (m : Model) : list Class :=
  match m with
  | SiteSettings => [models_Model; ImageCompressionMixin]
  | Excursion => [ImageCompressionMixin; models_Model]
  | ExcursionImage => [ImageCompressionMixin; models_Model]
  | Review | FAQ | SocialLink => [models_Model]
  end.

(** The method resolution order: the class, then its bases left to right
    (the two bases share [object] only, which comes last and has no [save]). *)
Definition mro (m : Model) : list Class := model_class m :: bases m.

(** [not self.pk] *)
Definition pk_falsy (self : Instance) : bool :=
  match pk self with
  | None => true
  | Some k => k =? 0
  end.

Definition set_pk (self : Instance) (k : Z) : Instance :=
  {| cls := cls self; pk := Some k; attrs := attrs self;
     is_published := is_published self |}.

(** [save] looked up along the rest of the MRO: a class with its own [save]
    runs it, and its [super().save(...)] continues with the classes after it.
    [models.Model.save] ends the chain: it calls no [super().save]. *)
Fixpoint save_from (chain : list Class) (self : Instance)
    (update_fields : option (list string)) : M Instance :=
  match chain with
  | [] => raise (AttributeError "save")
  | models_Model :: _ => Model_save self update_fields
  | ImageCompressionMixin :: rest =>
      self <- save_from rest self update_fields ;;
      self <- lift (compress_images self) ;;
      save_from rest self
        (Some (List.map fst (image_compression_config (cls self))))
  | model_class SiteSettings :: rest =>
      if pk_falsy self then
        fun w =>
          if objects_exists (cls self) w
          then (Raise (ValidationError "Экземпляр этой модели уже существует"), w)
          else save_from rest (set_pk self 1) update_fields w
      else save_from rest self update_fields
  | model_class _ :: rest => save_from rest self update_fields
  end.

(** [instance.save()] *)
Definition save (self : Instance) : M Instance :=
  save_from (mro (cls self)) self None.

(** A fresh instance, as [cls(pk=...)] builds it: no file, published. *)
Definition new_instance (m : Model) (k : option Z) : Instance :=
  {| cls := m; pk := k; attrs := ∅; is_published := true |}.

(** [SiteSettings.load()]: [cls.objects.get_or_create(pk=1)]. *)
Definition load : M Instance :=
  fun w =>
    match table w SiteSettings !! 1 with
    | Some r => (Ok (instance_of_row SiteSettings 1 r), w)
    | None => save (new_instance SiteSettings (Some 1)) w
    end.

(** ** [templatetags/utils.py] *)

(** The names each class body binds ([models_Model]: the public interface
    of Django's base class). *)
Definition class_dict (c : Class) : list string :=
  match c with
  | models_Model =>
      [ "objects"; "pk"; "save"; "save_base"; "delete"; "full_clean"; "clean";
        "clean_fields"; "validate_unique"; "refresh_from_db"; "from_db";
        "check"; "serializable_value"; "get_deferred_fields"; "_meta";
        "DoesNotExist"; "MultipleObjectsReturned" ]
  | ImageCompressionMixin =>
      [ "default_max_width"; "default_max_height"; "default_quality";
        "image_compression_config"; "_compress_image_field";
        "compress_images"; "save" ]
  | model_class SiteSettings =>
      List.map field_name (_meta_fields SiteSettings)
      ++ [ "image_compression_config"; "Meta"; "__str__"; "save"; "load" ]
  | model_class Excursion =>
      List.map field_name (_meta_fields Excursion)
      ++ [ "image_compression_config"; "Meta"; "__str__"; "get_absolute_url" ]
  | model_class ExcursionImage =>
      List.map field_name (_meta_fields ExcursionImage)
      ++ [ "image_compression_config"; "Meta"; "__str__" ]
  | model_class m =>
      List.map field_name (_meta_fields m) ++ [ "Meta"; "__str__" ]
  end.

(** Attribute lookup on a class: the first class of the MRO that binds the
    name, [AttributeError] when none does. *)
Definition type_getattr (m : Model) (attr : string) : result Class :=
  match List.find (fun c => elem attr (class_dict c)) (mro m) with
  | Some c => Ok c
  | None => Raise (AttributeError attr)
  end.

(** Calling a class attribute with no argument: [load] is the one
    classmethod of the repository that takes none. *)
Definition call_classmethod (c : Class) (attr : string) : M Instance :=
  match c with
  | model_class SiteSettings =>
      if String.eqb attr "load" then load else raise TypeError
  | _ => raise TypeError
  end.

(** [return models.SiteSettings.get_solo()] *)
Definition get_site_settings : M Instance :=
  fun w =>
    match type_getattr SiteSettings "get_solo" with
    | Raise e => (Raise e, w)
    | Ok c => call_classmethod c "get_solo" w
    end.

Definition get_excursion_list : M (list Instance) :=
  fun w => (Ok (objects_all Excursion w), w).

Definition get_review_list : M (list Instance) :=
  fun w => (Ok (objects_all Review w), w).

Definition get_faq_list : M (list Instance) :=
  fun w => (Ok (objects_all FAQ w), w).

(** Values a template hands to a filter. *)
#[warnings="-register-all"]
Inductive value : Type :=
| VNone
| VBool (b : bool)
| VInt (n : Z)
| VStr (s : string)
| VList (l : list value).

(** A [try] statement with a [finally] clause: when the [finally] clause
    itself leaves with [return] ([Some]), that outcome replaces whatever the
    [try] clause returned or raised; when it runs to its end ([None]), the
    outcome of the [try] clause stands. *)
Definition try_finally {A} (try_clause : result A)
    (finally_clause : option (result A)) : result A :=
  match finally_clause with
  | Some outcome => outcome
  | None => try_clause
  end.

Section Filters.

(** [int(s)] on a string is the interpreter's; any parser will do. *)
Variable int_of_str : string -> option Z.

(** [int(i)] *)
Definition py_int (i : value) : result Z :=
  match i with
  | VInt n => Ok n
  | VBool b => Ok (if b then 1 else 0)
  | VStr s => match int_of_str s with
              | Some n => Ok n
              | None => Raise (ValueError "invalid literal for int()")
              end
  | VNone | VList _ => Raise TypeError
  end.

(** [list_obj[k]] with Python's negative indices. *)
Definition getitem (list_obj : value) (k : Z) : result value :=
  match list_obj with
  | VList l =>
      let n := Z.of_nat (List.length l) in
      let k' := if k <? 0 then k + n else k in
      if (0 <=? k') && (k' <? n) then
        match List.nth_error l (Z.to_nat k') with
        | Some v => Ok v
        | None => Raise IndexError
        end
      else Raise IndexError
  | VStr s =>
      let n := Z.of_nat (String.length s) in
      let k' := if k <? 0 then k + n else k in
      if (0 <=? k') && (k' <? n)
      then Ok (VStr (String.substring (Z.to_nat k') 1 s))
      else Raise IndexError
  | VNone | VBool _ | VInt _ => Raise TypeError
  end.

(** [try: return list_obj[int(i)]  finally: return ""] *)
Definition index (list_obj i : value) : result value :=
  try_finally
    (match py_int i with
     | Ok k => getitem list_obj k
     | Raise e => Raise e
     end)
    (Some (Ok (VStr ""))).

(** The same filter body without the [finally] clause, for comparison. *)
Definition index_try_only (list_obj i : value) : result value :=
  try_finally
    (match py_int i with
     | Ok k => getitem list_obj k
     | Raise e => Raise e
     end)
    None.

End Filters.

(** A decimal parser to run the filter with: an optional sign and digits. *)
Fixpoint digits (s : string) (acc : Z) : option Z :=
  match s with
  | EmptyString => Some acc
  | String c s' =>
      let n := nat_of_ascii c in
      if (48 <=? n)%nat && (n <=? 57)%nat
      then digits s' (10 * acc + Z.of_nat (n - 48))
      else None
  end.

Definition decimal (s : string) : option Z :=
  match s with
  | EmptyString => None
  | String "-" (String c r) => option_map Z.opp (digits (String c r) 0)
  | String "+" (String c r) => digits (String c r) 0
  | _ => digits s 0
  end.

(** ** [admin.py] *)

Section Admin.

(** The request and the answer of [ModelAdmin.has_add_permission]. *)
Variable request : Type.
Variable ModelAdmin_has_add_permission : request -> bool.

(** [SiteSettingsAdmin.has_add_permission] *)
Definition has_add_permission (req : request) : M bool :=
  fun w =>
    if objects_exists SiteSettings w then (Ok false, w)
    else (Ok (ModelAdmin_has_add_permission req), w).

End Admin.

(** The records an admin change list shows: no [ModelAdmin] of [admin.py]
    overrides [get_queryset], so it is the default manager's [all()]. *)
Definition admin_queryset (m : Model) : M (list Instance) :=
  fun w => (Ok (objects_all m w), w).

(** ** Sample data

    A 4000 by 3000 upload to the cover of an excursion. *)
Definition cover_upload : File :=
  mkFile "IMG_0042.PNG" (mkPayload (Some (PIL.mkImage 4000 3000 "RGBA")) Original)
         "image/png" false.

Definition excursion_with_cover : Instance :=
  mkInstance Excursion None {[ "cover" := Some cover_upload ]} true.

Definition cover_policy : list (string * Z) :=
  [("max_width", 1280); ("max_height", 1280); ("quality", 75)].

(** The file a stored record points to in column [n]. *)
Definition stored_file (w : World) (m : Model) (k : Z) (n : string) : option File :=
  match table w m !! k with
  | Some r => match columns r !! n with
              | Some v => v
              | None => None
              end
  | None => None
  end.

(** The field [fn] holds a named file with the bytes of [file]. *)
Definition holds (fn : string) (file : File) (self : Instance) : Prop :=
  exists f, getattr self fn = Some f
            /\ content f = content file /\ name f <> "".

Definition empty_world : World := mkWorld ∅ [].

(** A PNG banner uploaded to the settings record. *)
Definition banner_upload : File :=
  mkFile "banner.png" (mkPayload (Some (PIL.mkImage 3000 1500 "RGB")) Original)
         "image/png" false.

Definition settings_with_banner : Instance :=
  mkInstance SiteSettings None {[ "banner_image" := Some banner_upload ]} true.

(** An excursion with a header picture only. *)
Definition excursion_with_head : Instance :=
  mkInstance Excursion None {[ "cover_head" := Some cover_upload ]} true.

(** An upload whose bytes are not an image. *)
Definition broken_upload : File :=
  mkFile "notes.txt" (mkPayload None Original) "text/plain" false.

Definition excursion_with_broken_cover : Instance :=
  mkInstance Excursion None {[ "cover" := Some broken_upload ]} true.

(** A database holding one unpublished excursion. *)
Definition unpublished_world : World :=
  mkWorld {[ db_table Excursion := {[ 7 := mkRow ∅ false ]} ]} [].

(** A database holding the settings record. *)
Definition settings_world : World :=
  mkWorld {[ db_table SiteSettings := {[ 1 := mkRow ∅ true ]} ]} [].

(** [SiteSettings.load()] called [n] times in a row. *)
Fixpoint load_times (n : nat) : M (list Instance) :=
  match n with
  | O => ret []
  | S n' => obj <- load ;; objs <- load_times n' ;; ret (obj :: objs)
  end.

(** What [FileField.pre_save] leaves in a field that held [v]: an upload
    becomes the stored file, anything else stays. *)
Definition presaved (self : Instance) (v : option File) : option File :=
  match v with
  | Some file =>
      if truthy (Some file) && negb (committed file) then
        Some {| name := upload_to self (name file);
                content := content file;
                content_type := content_type file;
                committed := true |}
      else Some file
  | None => None
  end.


Definition unpublished_faq : Instance := mkInstance FAQ None ∅ false.

(** ** [admin.py]: the image previews *)

(** The double quote, as a one-character string. *)
Definition dquote : string := String (ascii_of_nat 34) EmptyString.

(** [django.utils.html.escape]: the five characters HTML reserves are
    replaced by their entities. *)
Fixpoint escape (s : string) : string :=
  match s with
  | EmptyString => EmptyString
  | String c s' =>
      (if Ascii.eqb c "&" then "&amp;"
       else if Ascii.eqb c "<" then "&lt;"
       else if Ascii.eqb c ">" then "&gt;"
       else if Ascii.eqb c (ascii_of_nat 34) then "&quot;"
       else if Ascii.eqb c "'" then "&#x27;"
       else String c EmptyString) +:+ escape s'
  end.

Section Previews.

(** [field.url]: the URL the storage gives the stored name. *)
Variable storage_url : string -> string.

(** The body shared by [logo_preview], [tursab_preview], [thumb],
    [cover_thumb], [cover_head_thumb] and [photo_thumb]:
    [format_html] escapes the URL it puts in the [src] attribute; an empty
    field gives the dash. *)
Definition image_preview (field : option File) : string :=
  match field with
  | Some f =>
      if truthy field then
        "<img src=" +:+ dquote +:+ escape (storage_url (name f)) +:+ dquote
        +:+ " style=" +:+ dquote +:+ "max-height:60px;" +:+ dquote +:+ "/>"
      else "—"
  | None => "—"
  end.

Definition logo_preview (obj : Instance) : string :=
  image_preview (getattr obj "logo").
Definition tursab_preview (obj : Instance) : string :=
  image_preview (getattr obj "tursab_image").
Definition thumb (obj : Instance) : string :=
  image_preview (getattr obj "image").
Definition cover_thumb (obj : Instance) : string :=
  image_preview (getattr obj "cover").
Definition cover_head_thumb (obj : Instance) : string :=
  image_preview (getattr obj "cover_head").
Definition photo_thumb (obj : Instance) : string :=
  image_preview (getattr obj "photo").

End Previews.


(** The list [l] shows the stored records of [m], each once. *)
Definition lists_exactly (w : World) (m : Model) (l : list Instance) : Prop :=
  List.NoDup (List.map pk l)
  /\ forall o, In o l <->
               exists k r, table w m !! k = Some r /\ o = instance_of_row m k r.



(** * Proofs *)

(** ** The thumbnail size on examples *)

Example thumbnail_4000x3000 :
  PIL.thumbnail (PIL.mkImage 4000 3000 "RGB") (1280, 1280)
  = PIL.mkImage 1280 960 "RGB".
Proof. reflexivity. Qed.

Example thumbnail_small :
  PIL.thumbnail (PIL.mkImage 640 480 "RGB") (1280, 1280)
  = PIL.mkImage 640 480 "RGB".
Proof. reflexivity. Qed.

Example thumbnail_banner :
  PIL.thumbnail (PIL.mkImage 1000 3000 "RGB") (1080, 520)
  = PIL.mkImage 173 520 "RGB".
Proof. reflexivity. Qed.

Example thumbnail_sliver :
  PIL.thumbnail (PIL.mkImage 5000 1 "RGB") (1280, 1280)
  = PIL.mkImage 1280 1 "RGB".
Proof. reflexivity. Qed.

(** ** Facts on the thumbnail size *)

Section ThumbnailFacts.

Lemma Qdiv_inject_pos (a : Z) (p : positive) :
  (inject_Z a / inject_Z (Z.pos p) == a # p)%Q.
Proof.
  unfold Qdiv, Qinv, Qmult, Qeq, inject_Z; simpl. lia.
Qed.

Lemma Qfloor_frac (q : Q) (a : Z) (p : positive) :
  (q == a # p)%Q -> Qfloor q = a / Z.pos p.
Proof. intros ->. reflexivity. Qed.

Lemma Qceiling_frac (q : Q) (a : Z) (p : positive) :
  (q == a # p)%Q -> Qceiling q = - (- a / Z.pos p).
Proof. intros ->. reflexivity. Qed.

Lemma min_by_key_cases (a b : Z) (key : Z -> Q) :
  PIL.min_by_key a b key = a \/ PIL.min_by_key a b key = b.
Proof. unfold PIL.min_by_key. destruct (Qle_bool _ _); auto. Qed.

(** The rounded side, as Pillow picks it, is within one pixel of the exact
    proportional value [a / p], is at least 1, and stays below every integer
    bound of that value. *)
Lemma round_aspect_spec (q : Q) (key : Z -> Q) (a : Z) (p : positive) :
  (q == a # p)%Q -> 0 < a ->
  1 <= PIL.round_aspect q key
  /\ Z.abs (PIL.round_aspect q key * Z.pos p - a) < Z.pos p
  /\ (forall b, 1 <= b -> a <= b * Z.pos p -> PIL.round_aspect q key <= b).
Proof.
  intros Hq Ha. unfold PIL.round_aspect.
  rewrite (Qfloor_frac q a p Hq), (Qceiling_frac q a p Hq).
  pose proof (Z.div_mod a (Z.pos p) ltac:(lia)) as Hf.
  pose proof (Z.mod_pos_bound a (Z.pos p) ltac:(lia)) as Hfm.
  pose proof (Z.div_mod (- a) (Z.pos p) ltac:(lia)) as Hc.
  pose proof (Z.mod_pos_bound (- a) (Z.pos p) ltac:(lia)) as Hcm.
  set (f := a / Z.pos p) in *. set (c := - a / Z.pos p) in *.
  assert (0 <= f) by nia. assert (c <= -1) by nia.
  destruct (min_by_key_cases f (- c) key) as [-> | ->].
  - repeat split; [lia | nia | intros b Hb Hab; nia].
  - repeat split; [lia | nia | intros b Hb Hab; nia].
Qed.

Lemma preserve_aspect_ratio_fits (self : PIL.Image) (x y : Z) :
  PIL.width self <= x -> PIL.height self <= y ->
  PIL.preserve_aspect_ratio self (x, y) = None.
Proof.
  intros Hx Hy. unfold PIL.preserve_aspect_ratio.
  apply Z.leb_le in Hx, Hy. now rewrite Hx, Hy.
Qed.

Lemma preserve_aspect_ratio_shrinks (self : PIL.Image) (x y : Z) :
  0 < PIL.width self -> 0 < PIL.height self -> 0 < x -> 0 < y ->
  ~ (PIL.width self <= x /\ PIL.height self <= y) ->
  exists x' y',
    PIL.preserve_aspect_ratio self (x, y) = Some (x', y')
    /\ 1 <= x' <= x /\ 1 <= y' <= y
    /\ x' <= PIL.width self /\ y' <= PIL.height self
    /\ Z.abs (x' * PIL.height self - y' * PIL.width self)
       < Z.max (PIL.width self) (PIL.height self).
Proof.
  destruct self as [w h m]; simpl. intros Hw Hh Hx Hy Hbig.
  unfold PIL.preserve_aspect_ratio; simpl.
  destruct ((w <=? x) && (h <=? y)) eqn:Hfit.
  { apply andb_prop in Hfit as [H1 H2].
    apply Z.leb_le in H1, H2. tauto. }
  destruct w as [|pw|]; try lia. destruct h as [|ph|]; try lia.
  destruct x as [|px|]; try lia. destruct y as [|py|]; try lia.
  set (aspect := (inject_Z (Z.pos pw) / inject_Z (Z.pos ph))%Q).
  assert (Hasp : (aspect == Z.pos pw # ph)%Q) by apply Qdiv_inject_pos.
  destruct (Qle_bool aspect (inject_Z (Z.pos px) / inject_Z (Z.pos py))) eqn:Hcmp.
  - apply Qle_bool_iff in Hcmp.
    rewrite Hasp, Qdiv_inject_pos in Hcmp. unfold Qle in Hcmp; simpl in Hcmp.
    assert (Hq : (inject_Z (Z.pos py) * aspect == (Z.pos py * Z.pos pw) # ph)%Q).
    { rewrite Hasp. unfold Qmult, Qeq, inject_Z; simpl. lia. }
    destruct (round_aspect_spec _
                (fun n => Qabs (aspect - inject_Z n / inject_Z (Z.pos py))%Q)
                _ _ Hq ltac:(lia)) as (H1 & Habs & Hle).
    set (r := PIL.round_aspect _ _) in *.
    exists r, (Z.pos py). split; [reflexivity|].
    assert (Z.pos py < Z.pos ph) by nia.
    assert (r <= Z.pos px) by (apply Hle; lia).
    assert (r <= Z.pos pw) by (apply Hle; nia).
    lia.
  - assert (Hgt : Z.pos px * Z.pos ph < Z.pos pw * Z.pos py).
    { destruct (Z.lt_ge_cases (Z.pos px * Z.pos ph) (Z.pos pw * Z.pos py)) as [|Hge];
        [assumption|].
      assert (Hle : Qle_bool aspect (inject_Z (Z.pos px) / inject_Z (Z.pos py)) = true).
      { apply Qle_bool_iff. rewrite Hasp, Qdiv_inject_pos.
        unfold Qle; simpl. lia. }
      congruence. }
    assert (Hq : (inject_Z (Z.pos px) / aspect == (Z.pos px * Z.pos ph) # pw)%Q).
    { rewrite Hasp. unfold Qdiv, Qinv, Qmult, Qeq, inject_Z; simpl. lia. }
    destruct (round_aspect_spec _
                (fun n => if n =? 0 then 0%Q
                          else Qabs (aspect - inject_Z (Z.pos px) / inject_Z n)%Q)
                _ _ Hq ltac:(lia)) as (H1 & Habs & Hle).
    set (r := PIL.round_aspect _ _) in *.
    exists (Z.pos px), r. split; [reflexivity|].
    assert (Z.pos px < Z.pos pw) by nia.
    assert (r <= Z.pos py) by (apply Hle; lia).
    assert (r <= Z.pos ph) by (apply Hle; nia).
    lia.
Qed.

End ThumbnailFacts.

(** ** [pathlib]: the stem of [dir/base.ext] *)

Section Stem.


Lemma split_nonempty (sep : ascii) (s : string) : pathlib.split sep s <> [].
Proof.
  induction s as [|c s IH]; simpl; [discriminate|].
  destruct (Ascii.eqb c sep); [discriminate|].
  destruct (pathlib.split sep s); [tauto|discriminate].
Qed.

Lemma split_no_sep (sep : ascii) (s : string) :
  occurs sep s = false -> pathlib.split sep s = [s].
Proof.
  induction s as [|c s IH]; simpl; [reflexivity|].
  intros H. apply orb_false_iff in H as [Hc Hs].
  rewrite Hc, (IH Hs). reflexivity.
Qed.

Lemma split_app (sep : ascii) (a b : string) :
  pathlib.split sep (a +:+ String sep b)
  = pathlib.split sep a ++ pathlib.split sep b.
Proof.
  induction a as [|c a IH]; simpl.
  - now rewrite Ascii.eqb_refl.
  - destruct (Ascii.eqb c sep); [now rewrite IH|].
    rewrite IH. pose proof (split_nonempty sep a) as Hne.
    destruct (pathlib.split sep a); [tauto|reflexivity].
Qed.

Lemma name_of_file (dir file : string) :
  occurs "/" file = false -> file <> "" -> file <> "." ->
  pathlib.name file = file
  /\ pathlib.name (dir +:+ "/" +:+ file) = file.
Proof.
  intros Hsep Hne Hdot.
  assert (Hkeep : negb (String.eqb file "") && negb (String.eqb file ".") = true).
  { destruct (String.eqb_spec file ""); [tauto|].
    destruct (String.eqb_spec file "."); [tauto|reflexivity]. }
  unfold pathlib.name, pathlib.parts. split.
  - rewrite (split_no_sep _ _ Hsep). simpl. now rewrite Hkeep.
  - change ("/" +:+ file) with (String "/" file).
    rewrite split_app, List.filter_app, (split_no_sep _ _ Hsep). simpl.
    rewrite Hkeep. apply List.last_last.
Qed.

Lemma occurs_app (c : ascii) (a b : string) :
  occurs c (a +:+ b) = occurs c a || occurs c b.
Proof.
  induction a as [|x a IH]; simpl; [reflexivity|].
  now rewrite IH, orb_assoc.
Qed.

Lemma rfind_from_absent (c : ascii) (s : string) (i : Z) :
  occurs c s = false -> pathlib.rfind_from c s i = -1.
Proof.
  revert i. induction s as [|a s IH]; simpl; intros i H; [reflexivity|].
  apply orb_false_iff in H as [Ha Hs]. now rewrite (IH _ Hs), Ha.
Qed.

Lemma rfind_from_last (c : ascii) (base ext : string) (i : Z) :
  occurs c ext = false -> 0 <= i ->
  pathlib.rfind_from c (base +:+ String c ext) i
  = i + Z.of_nat (String.length base).
Proof.
  intros Hext. revert i. induction base as [|a base IH]; intros i Hi.
  - simpl. rewrite (rfind_from_absent _ _ _ Hext), Ascii.eqb_refl. simpl. lia.
  - simpl pathlib.rfind_from. rewrite IH by lia.
    destruct (Z.leb_spec 0 (i + 1 + Z.of_nat (String.length base)));
      simpl String.length; lia.
Qed.

Lemma substring_prefix (a b : string) :
  String.substring 0 (String.length a) (a +:+ b) = a.
Proof.
  induction a as [|x a IH]; simpl.
  - now destruct b.
  - now rewrite IH.
Qed.

Lemma length_app (a b : string) :
  String.length (a +:+ b) = (String.length a + String.length b)%nat.
Proof. induction a as [|x a IH]; simpl; [reflexivity|now rewrite IH]. Qed.

(** Whatever the extension, the stem of [base.ext] and of [dir/base.ext]
    is [base]. *)
Lemma stem_drops_extension (dir base ext : string) :
  occurs "/" base = false -> occurs "/" ext = false ->
  occurs "." ext = false -> base <> "" -> ext <> "" ->
  pathlib.stem (base +:+ "." +:+ ext) = base
  /\ pathlib.stem (dir +:+ "/" +:+ base +:+ "." +:+ ext) = base.
Proof.
  intros Hb He Hd Hbase Hext.
  set (file := base +:+ "." +:+ ext).
  assert (Hfile : occurs "/" file = false).
  { unfold file. change ("." +:+ ext) with (String "." ext).
    rewrite occurs_app. simpl. now rewrite Hb, He. }
  assert (Hlen : String.length file
                 = (String.length base + S (String.length ext))%nat).
  { unfold file. change ("." +:+ ext) with (String "." ext).
    now rewrite length_app. }
  assert (Hbl : (0 < String.length base)%nat) by (destruct base; [tauto|simpl; lia]).
  assert (Hel : (0 < String.length ext)%nat) by (destruct ext; [tauto|simpl; lia]).
  assert (Hne : file <> "").
  { intros E. rewrite E in Hlen. simpl in Hlen. lia. }
  assert (Hdot : file <> ".").
  { intros E. rewrite E in Hlen. simpl in Hlen. lia. }
  destruct (name_of_file dir file Hfile Hne Hdot) as [Hn1 Hn2].
  assert (Hr : pathlib.rfind "." file = Z.of_nat (String.length base)).
  { unfold pathlib.rfind, file. change ("." +:+ ext) with (String "." ext).
    rewrite (rfind_from_last _ _ _ 0 Hd) by lia. lia. }
  assert (Hstem : forall s, pathlib.name s = file -> pathlib.stem s = base).
  { intros s Hs. unfold pathlib.stem. rewrite Hs, Hr, Hlen, Nat2Z.id.
    destruct (Z.ltb_spec 0 (Z.of_nat (String.length base))); [|lia].
    destruct (Z.ltb_spec (Z.of_nat (String.length base))
                (Z.of_nat (String.length base + S (String.length ext)) - 1)); [|lia].
    simpl. apply substring_prefix. }
  split; apply Hstem; assumption.
Qed.

End Stem.

Example stem_png : pathlib.stem "photo.png" = "photo".
Proof. reflexivity. Qed.

Example stem_stored : pathlib.stem "main/excursion/cover/pic.tar.gz" = "pic.tar".
Proof. reflexivity. Qed.

Example stem_hidden : pathlib.stem ".hidden" = ".hidden".
Proof. reflexivity. Qed.

Example stem_no_extension : pathlib.stem "main/review/photo/scan" = "scan".
Proof. reflexivity. Qed.

(** ** The image compression utility *)

Lemma config_get_default (config : list (string * Z)) (key : string) (d : Z) :
  ~ In key (List.map fst config) -> config_get config key d = d.
Proof.
  induction config as [|[k v] rest IH]; simpl; [reflexivity|].
  intros Hnot. destruct (String.eqb_spec k key) as [->|Hne].
  - exfalso. apply Hnot. now left.
  - apply IH. intros Hin. apply Hnot. now right.
Qed.

Lemma getattr_setattr (self : Instance) (n : string) (v : File) :
  getattr (setattr self n v) n = Some v.
Proof. unfold getattr, setattr; simpl. now rewrite lookup_insert_eq. Qed.

Lemma getattr_setattr_ne (self : Instance) (n n' : string) (v : File) :
  n <> n' -> getattr (setattr self n v) n' = getattr self n'.
Proof. intros Hne. unfold getattr, setattr; simpl. now rewrite lookup_insert_ne. Qed.

Lemma truthy_named (field : File) :
  name field <> "" -> truthy (Some field) = true.
Proof.
  intros Hn. unfold truthy. destruct (String.eqb_spec (name field) ""); [tauto|reflexivity].
Qed.


(** What [_compress_image_field] does to a named, decodable field. *)
Lemma _compress_image_field_ok (self : Instance) (field_name : string)
    (config : list (string * Z)) (field : File) (img : PIL.Image) :
  getattr self field_name = Some field ->
  name field <> "" ->
  decoded (content field) = Some img ->
  _compress_image_field self field_name config
  = Ok (setattr self field_name
          (InMemoryUploadedFile (processed config img)
             (JPEG (config_get config "quality" default_quality) true)
             (pathlib.stem (name field) +:+ ".jpg") "image/jpeg")).
Proof.
  intros Hget Hname Hdec. unfold _compress_image_field, Image_open, processed.
  rewrite Hget, (truthy_named field Hname), Hdec. reflexivity.
Qed.

Lemma processed_size (config : list (string * Z)) (img : PIL.Image) :
  let box := (config_get config "max_width" default_max_width,
              config_get config "max_height" default_max_height) in
  PIL.width (processed config img)
  = PIL.width (PIL.thumbnail img box)
  /\ PIL.height (processed config img)
     = PIL.height (PIL.thumbnail img box).
Proof.
  unfold processed, PIL.thumbnail, PIL.preserve_aspect_ratio.
  destruct (negb (String.eqb (PIL.mode img) "RGB")); simpl;
    repeat (match goal with |- context [if ?b then _ else _] => destruct b end; simpl);
    auto.
Qed.

(** C3: for a source image and a policy with positive maxima (1280 by 1280
    for a key the policy leaves out), the picture [_compress_image_field]
    stores in the field keeps its width and height when it already fits the
    box, and otherwise has width and height within the maxima, no larger than
    the source, and proportional to the source up to the rounding of one side
    to a whole pixel. *)
Theorem compress_image_field_bounding_box (self : Instance) (field_name : string)
    (config : list (string * Z)) (field : File) (img : PIL.Image) :
  getattr self field_name = Some field ->
  name field <> "" ->
  decoded (content field) = Some img ->
  0 < PIL.width img -> 0 < PIL.height img ->
  0 < config_get config "max_width" default_max_width ->
  0 < config_get config "max_height" default_max_height ->
  let w := PIL.width img in
  let h := PIL.height img in
  let max_width := config_get config "max_width" default_max_width in
  let max_height := config_get config "max_height" default_max_height in
  (~ In "max_width" (List.map fst config) -> max_width = 1280)
  /\ (~ In "max_height" (List.map fst config) -> max_height = 1280)
  /\ exists self' out img',
      _compress_image_field self field_name config = Ok self'
      /\ getattr self' field_name = Some out
      /\ decoded (content out) = Some img'
      /\ (w <= max_width /\ h <= max_height ->
          PIL.width img' = w /\ PIL.height img' = h)
      /\ (~ (w <= max_width /\ h <= max_height) ->
          1 <= PIL.width img' <= max_width
          /\ 1 <= PIL.height img' <= max_height
          /\ PIL.width img' <= w /\ PIL.height img' <= h
          /\ Z.abs (PIL.width img' * h - PIL.height img' * w) < Z.max w h).
Proof.
  intros Hget Hname Hdec Hw Hh Hmw Hmh w h max_width max_height.
  split; [apply config_get_default|]. split; [apply config_get_default|].
  eexists _, _, _. split; [apply (_compress_image_field_ok _ _ _ _ _ Hget Hname Hdec)|].
  split; [apply getattr_setattr|]. split; [reflexivity|].
  destruct (processed_size config img) as [-> ->].
  fold max_width max_height. unfold PIL.thumbnail. split.
  - intros [Hfw Hfh].
    now rewrite (preserve_aspect_ratio_fits img max_width max_height Hfw Hfh).
  - intros Hbig.
    destruct (preserve_aspect_ratio_shrinks img max_width max_height
                Hw Hh Hmw Hmh Hbig) as (x' & y' & -> & H1 & H2 & H3 & H4 & H5).
    simpl. fold w h in H3, H4, H5. lia.
Qed.


Lemma compress_image_field_bounding_box_witness :
  exists self' out img',
    _compress_image_field excursion_with_cover "cover" cover_policy = Ok self'
    /\ getattr self' "cover" = Some out
    /\ decoded (content out) = Some img'
    /\ 1 <= PIL.width img' <= 1280 /\ 1 <= PIL.height img' <= 1280.
Proof.
  destruct (compress_image_field_bounding_box excursion_with_cover "cover"
              cover_policy cover_upload (PIL.mkImage 4000 3000 "RGBA"))
    as (_ & _ & self' & out & img' & Hrun & Hget & Hdec & _ & Hbig);
    [reflexivity | discriminate | reflexivity | reflexivity | reflexivity
    | reflexivity | reflexivity |].
  exists self', out, img'. repeat split; try assumption;
    destruct Hbig as (H1 & H2 & _); simpl; try lia; tauto.
Defined.

(** C4: for a named field that decodes, the payload [_compress_image_field]
    puts in the field is a JPEG at the quality of the policy (70 when the
    policy has none) with optimisation on, of content type image/jpeg, and
    its file name is the stem of the original name followed by [.jpg]. *)
Theorem compress_image_field_jpeg_name (self : Instance) (field_name : string)
    (config : list (string * Z)) (field : File) (img : PIL.Image) :
  getattr self field_name = Some field ->
  name field <> "" ->
  decoded (content field) = Some img ->
  exists self' out,
    _compress_image_field self field_name config = Ok self'
    /\ getattr self' field_name = Some out
    /\ encoding (content out) = JPEG (config_get config "quality" default_quality) true
    /\ (~ In "quality" (List.map fst config) ->
        encoding (content out) = JPEG 70 true)
    /\ content_type out = "image/jpeg"
    /\ name out = pathlib.stem (name field) +:+ ".jpg"
    /\ (forall dir base ext,
          occurs "/" base = false -> occurs "/" ext = false ->
          occurs "." ext = false -> base <> "" -> ext <> "" ->
          name field = base +:+ "." +:+ ext
          \/ name field = dir +:+ "/" +:+ base +:+ "." +:+ ext ->
          name out = base +:+ ".jpg").
Proof.
  intros Hget Hname Hdec.
  eexists _, _. split; [apply (_compress_image_field_ok _ _ _ _ _ Hget Hname Hdec)|].
  split; [apply getattr_setattr|]. simpl. repeat split.
  - intros Hq. now rewrite (config_get_default _ _ _ Hq).
  - intros dir base ext Hb He Hd Hbase Hext Hshape.
    destruct (stem_drops_extension dir base ext Hb He Hd Hbase Hext) as [H1 H2].
    destruct Hshape as [-> | ->]; [now rewrite H1 | now rewrite H2].
Qed.

Lemma compress_image_field_jpeg_name_witness :
  exists self' out,
    _compress_image_field excursion_with_cover "cover" cover_policy = Ok self'
    /\ getattr self' "cover" = Some out
    /\ encoding (content out) = JPEG 75 true
    /\ name out = "IMG_0042.jpg".
Proof.
  destruct (compress_image_field_jpeg_name excursion_with_cover "cover"
              cover_policy cover_upload (PIL.mkImage 4000 3000 "RGBA"))
    as (self' & out & Hrun & Hget & Henc & _ & _ & Hname & _);
    [reflexivity | discriminate | reflexivity |].
  exists self', out. repeat split; assumption.
Defined.

(** ** The upload path *)

(** C7: the path built for an upload to the [cover_head] field of an
    excursion names the field [cover]: [upload_to] receives the instance and
    the file name only and takes the first field of the model whose handler
    it is. *)
Theorem upload_to_names_first_file_field :
  (forall k a p filename,
     generate_filename (ImageField "cover_head" fn_upload_to)
       (mkInstance Excursion k a p) filename
     = "main/excursion/cover/" +:+ filename)
  /\ (forall k a p filename,
        generate_filename (ImageField "banner_image" fn_upload_to)
          (mkInstance SiteSettings k a p) filename
        = "main/sitesettings/logo/" +:+ filename)
  /\ String.eqb
       (generate_filename (ImageField "cover_head" fn_upload_to)
          excursion_with_head "a.png")
       "main/excursion/cover_head/a.png" = false.
Proof. repeat split. Qed.

(** On a model with one file field the path does name that field. *)
Lemma upload_to_single_field (k : option Z) (a : gmap string (option File))
    (p : bool) (filename : string) :
  generate_filename (ImageField "image" fn_upload_to)
    (mkInstance ExcursionImage k a p) filename
  = "main/excursionimage/image/" +:+ filename
  /\ generate_filename (ImageField "photo" fn_upload_to)
       (mkInstance Review k a p) filename
     = "main/review/photo/" +:+ filename.
Proof. split; reflexivity. Qed.

(** ** The save hook *)

(** C1: [SiteSettings] lists [models.Model] before [ImageCompressionMixin],
    so its [super().save()] reaches Django's [save] and the mixin's [save] is
    never run: a settings record is written once, with the bytes as uploaded,
    although the class has a policy map.  The key of that map, [banner], is
    not a field of the model either. *)
Theorem SiteSettings_save_never_compresses :
  (forall k a p w,
     let self := mkInstance SiteSettings k a p in
     save self w
     = if pk_falsy self then
         if objects_exists SiteSettings w
         then (Raise (ValidationError "Экземпляр этой модели уже существует"), w)
         else Model_save (set_pk self 1) None w
       else Model_save self None w)
  /\ List.map fst (image_compression_config SiteSettings) = ["banner"]
  /\ elem "banner" (List.map field_name (_meta_fields SiteSettings)) = false
  /\ (exists self' w' f,
        save settings_with_banner empty_world = (Ok self', w')
        /\ writes w' = [mkWrite "main_sitesettings" 1 None]
        /\ stored_file w' SiteSettings 1 "banner_image" = Some f
        /\ content f = content banner_upload
        /\ encoding (content f) = Original).
Proof.
  split.
  { intros k a p w self. unfold save. simpl.
    destruct (pk_falsy self); reflexivity. }
  split; [reflexivity|]. split; [reflexivity|].
  eexists _, _, _. split; [reflexivity|]. vm_compute. auto.
Qed.

(** The classes that list the mixin first do run the hook: two writes, the
    second restricted to the keys of the policy map, and a JPEG in the
    record at the end. *)
Example Excursion_save_compresses :
  exists self' w' f,
    save excursion_with_cover empty_world = (Ok self', w')
    /\ writes w' = [ mkWrite "main_excursion" 1 None;
                     mkWrite "main_excursion" 1 (Some ["cover"; "cover_head"]) ]
    /\ stored_file w' Excursion 1 "cover" = Some f
    /\ f = mkFile "main/excursion/cover/IMG_0042.jpg"
             (mkPayload (Some (PIL.mkImage 1280 960 "RGB")) (JPEG 75 true))
             "image/jpeg" true.
Proof.
  eexists _, _, _. split; [reflexivity|]. vm_compute. auto.
Qed.

(** ** Template helpers *)

(** C2: [get_site_settings] asks the class for [get_solo], a name no class
    of the MRO of [SiteSettings] binds (the accessor of the model is [load]),
    so the call raises [AttributeError] on every database and returns no
    record; the three list helpers return the stored records and raise
    nothing. *)
Theorem get_site_settings_raises (w : World) :
  get_site_settings w = (Raise (AttributeError "get_solo"), w)
  /\ type_getattr SiteSettings "load" = Ok (model_class SiteSettings)
  /\ get_excursion_list w = (Ok (objects_all Excursion w), w)
  /\ get_review_list w = (Ok (objects_all Review w), w)
  /\ get_faq_list w = (Ok (objects_all FAQ w), w).
Proof. repeat split. Qed.

(** C9: whatever the list and the index, the [index] filter returns the
    empty string: the [return] of its [finally] clause replaces the element
    a successful lookup returned as well as any exception of a failed one. *)
Theorem index_returns_empty_string (int_of_str : string -> option Z)
    (list_obj i : value) :
  index int_of_str list_obj i = Ok (VStr "").
Proof. reflexivity. Qed.

Example index_found_but_dropped :
  index_try_only decimal (VList [VInt 10; VInt 20]) (VStr "1") = Ok (VInt 20)
  /\ index decimal (VList [VInt 10; VInt 20]) (VStr "1") = Ok (VStr "").
Proof. split; reflexivity. Qed.

Example index_out_of_range :
  index_try_only decimal (VList [VInt 10; VInt 20]) (VInt 5) = Raise IndexError
  /\ index decimal (VList [VInt 10; VInt 20]) (VInt 5) = Ok (VStr "").
Proof. split; reflexivity. Qed.

Example index_not_a_number :
  index_try_only decimal (VList [VInt 10]) (VStr "first")
  = Raise (ValueError "invalid literal for int()")
  /\ index decimal (VList [VInt 10]) (VStr "first") = Ok (VStr "").
Proof. split; reflexivity. Qed.

Lemma objects_all_complete (m : Model) (w : World) (k : Z) (r : Row) :
  table w m !! k = Some r -> In (instance_of_row m k r) (objects_all m w).
Proof.
  intros Hk. unfold objects_all.
  apply (List.in_map (fun kr => instance_of_row m (fst kr) (snd kr))
           (map_to_list (table w m)) (k, r)).
  apply list_elem_of_In, elem_of_map_to_list. exact Hk.
Qed.

Lemma objects_all_sound (m : Model) (w : World) (o : Instance) :
  In o (objects_all m w) ->
  exists k r, table w m !! k = Some r /\ o = instance_of_row m k r.
Proof.
  unfold objects_all. intros Hin. apply List.in_map_iff in Hin as ([k r] & <- & Hin).
  exists k, r. split; [|reflexivity].
  now apply elem_of_map_to_list, list_elem_of_In.
Qed.

(** C8, as the code has it: the three list helpers return every stored
    record of their entity, whatever its publication flag, exactly the
    records the admin change list starts from; no helper filters. *)
Theorem list_helpers_unfiltered (w : World) :
  exists excursions reviews faqs,
    get_excursion_list w = (Ok excursions, w)
    /\ get_review_list w = (Ok reviews, w)
    /\ get_faq_list w = (Ok faqs, w)
    /\ admin_queryset Excursion w = (Ok excursions, w)
    /\ admin_queryset Review w = (Ok reviews, w)
    /\ admin_queryset FAQ w = (Ok faqs, w)
    /\ (forall k r, table w Excursion !! k = Some r ->
                    In (instance_of_row Excursion k r) excursions)
    /\ (forall k r, table w Review !! k = Some r ->
                    In (instance_of_row Review k r) reviews)
    /\ (forall k r, table w FAQ !! k = Some r ->
                    In (instance_of_row FAQ k r) faqs).
Proof.
  eexists _, _, _. repeat (split; [reflexivity|]).
  repeat split; intros k r; apply objects_all_complete.
Qed.

Lemma list_helpers_unfiltered_witness :
  exists excursions,
    get_excursion_list unpublished_world = (Ok excursions, unpublished_world)
    /\ In (instance_of_row Excursion 7 (mkRow ∅ false)) excursions.
Proof.
  destruct (list_helpers_unfiltered unpublished_world)
    as (excursions & reviews & faqs & He & _ & _ & _ & _ & _ & Hall & _).
  exists excursions. split; [exact He|]. apply Hall. reflexivity.
Defined.

(** C8, as the claim has it, fails: the unpublished excursion of
    [unpublished_world] is in the list [get_excursion_list] returns. *)
Lemma get_excursion_list_returns_unpublished :
  get_excursion_list unpublished_world
  = (Ok [mkInstance Excursion (Some 7) ∅ false], unpublished_world)
  /\ is_published (mkInstance Excursion (Some 7) ∅ false) = false.
Proof. split; reflexivity. Qed.

(** ** The settings singleton *)

Lemma table_put (m : Model) (k : Z) (r : Row) (uf : option (list string))
    (w : World) :
  table (put m k r uf w) m = <[k := r]> (table w m).
Proof. unfold table at 1, put; simpl. now rewrite lookup_insert_eq. Qed.

Lemma writes_put (m : Model) (k : Z) (r : Row) (uf : option (list string))
    (w : World) :
  writes (put m k r uf w) = writes w ++ [mkWrite (db_table m) k uf].
Proof. reflexivity. Qed.

Lemma load_ok (w : World) :
  exists obj w',
    load w = (Ok obj, w')
    /\ cls obj = SiteSettings /\ pk obj = Some 1
    /\ is_Some (table w' SiteSettings !! 1).
Proof.
  unfold load. destruct (table w SiteSettings !! 1) as [r|] eqn:Hrow.
  - exists (instance_of_row SiteSettings 1 r), w. rewrite Hrow. eauto.
  - eexists _, _. split; [reflexivity|]. split; [reflexivity|].
    split; [reflexivity|]. cbn [fold_left filter]. simpl pk. simpl cls.
    rewrite table_put, lookup_insert_eq. eauto.
Qed.

Lemma load_times_ok (n : nat) (w : World) :
  exists objs w',
    load_times n w = (Ok objs, w')
    /\ List.length objs = n
    /\ List.Forall (fun o => cls o = SiteSettings /\ pk o = Some 1) objs.
Proof.
  revert w. induction n as [|n IH]; intros w.
  - exists [], w. repeat split. constructor.
  - destruct (load_ok w) as (obj & w1 & Hload & Hcls & Hpk & _).
    destruct (IH w1) as (objs & w2 & Hrest & Hlen & Hall).
    exists (obj :: objs), w2. simpl. unfold bind. rewrite Hload, Hrest.
    split; [reflexivity|]. split; [simpl; now rewrite Hlen|].
    constructor; auto.
Qed.

(** C5: [SiteSettings.load()], called any number of times on any database,
    returns each time a settings record of identity 1 and leaves that record
    stored; saving a [SiteSettings] instance with no identity while a
    settings record exists raises [ValidationError] and leaves the database
    as it was. *)
Theorem SiteSettings_singleton :
  (forall n w,
     exists objs w',
       load_times n w = (Ok objs, w')
       /\ List.length objs = n
       /\ List.Forall (fun o => cls o = SiteSettings /\ pk o = Some 1) objs)
  /\ (forall w, exists obj w',
        load w = (Ok obj, w') /\ pk obj = Some 1
        /\ is_Some (table w' SiteSettings !! 1))
  /\ (forall self w,
        cls self = SiteSettings -> pk self = None ->
        objects_exists SiteSettings w = true ->
        save self w
        = (Raise (ValidationError "Экземпляр этой модели уже существует"), w)).
Proof.
  split; [apply load_times_ok|]. split.
  - intros w. destruct (load_ok w) as (obj & w' & H1 & _ & H2 & H3). eauto.
  - intros [c k a p] w Hcls Hpk Hex. simpl in Hcls, Hpk. subst c k.
    unfold save. simpl. now rewrite Hex.
Qed.

Lemma SiteSettings_singleton_witness :
  save (new_instance SiteSettings None) settings_world
  = (Raise (ValidationError "Экземпляр этой модели уже существует"), settings_world).
Proof.
  apply (proj2 (proj2 SiteSettings_singleton)); reflexivity.
Defined.

(** ** The admin *)

(** C10: while a settings record exists, [SiteSettingsAdmin] answers
    [False] to [has_add_permission], whatever the base class would answer,
    and a [save] of a new instance is refused as well; with no record the
    answer is the base class's. *)
Theorem has_add_permission_singleton (request : Type)
    (ModelAdmin_has_add_permission : request -> bool) (req : request) (w : World) :
  (objects_exists SiteSettings w = true ->
   has_add_permission request ModelAdmin_has_add_permission req w = (Ok false, w)
   /\ exists e, save (new_instance SiteSettings None) w = (Raise e, w))
  /\ (objects_exists SiteSettings w = false ->
      has_add_permission request ModelAdmin_has_add_permission req w
      = (Ok (ModelAdmin_has_add_permission req), w)).
Proof.
  unfold has_add_permission. split; intros Hex; rewrite Hex; [|reflexivity].
  split; [reflexivity|]. eexists. unfold save. simpl.
  rewrite Hex. reflexivity.
Qed.

Lemma has_add_permission_singleton_witness :
  has_add_permission unit (fun _ => true) tt settings_world
  = (Ok false, settings_world).
Proof.
  apply (proj1 (has_add_permission_singleton unit (fun _ => true) tt settings_world)).
  reflexivity.
Defined.

(** ** A decoding failure in the save hook *)

Section DecodeFailure.

Lemma upload_to_named (self : Instance) (filename : string) :
  upload_to self filename <> "".
Proof. unfold upload_to, app_label. discriminate. Qed.

Lemma pre_save_cls_pk (self : Instance) (g : Field) :
  cls (pre_save self g) = cls self /\ pk (pre_save self g) = pk self.
Proof.
  unfold pre_save. destruct (getattr self (field_name g)) as [f|]; [|auto].
  destruct (truthy (Some f) && negb (committed f)); auto.
Qed.

Lemma pre_save_holds (fn : string) (file : File) (self : Instance) (g : Field) :
  holds fn file self -> holds fn file (pre_save self g).
Proof.
  intros (f & Hget & Hc & Hn). unfold pre_save.
  destruct (getattr self (field_name g)) as [f'|] eqn:Hg; [|exists f; auto].
  destruct (truthy (Some f') && negb (committed f')) eqn:Hcond; [|exists f; auto].
  destruct (String.eqb_spec (field_name g) fn) as [Heq|Hne].
  - rewrite Heq in *. rewrite Hget in Hg. injection Hg as <-.
    eexists. split; [apply getattr_setattr|]. simpl. split; [exact Hc|].
    unfold generate_filename. destruct (field_upload_to g) as [[]|];
      [apply upload_to_named | exact Hn].
  - exists f. rewrite getattr_setattr_ne by exact Hne. auto.
Qed.

Lemma fold_pre_save (fn : string) (file : File) (fields : list Field)
    (self : Instance) :
  cls (List.fold_left pre_save fields self) = cls self
  /\ pk (List.fold_left pre_save fields self) = pk self
  /\ (holds fn file self -> holds fn file (List.fold_left pre_save fields self)).
Proof.
  revert self. induction fields as [|g fields IH]; intros self; simpl; [auto|].
  destruct (IH (pre_save self g)) as (Hc & Hp & Hh).
  destruct (pre_save_cls_pk self g) as [Hc' Hp'].
  rewrite Hc, Hp, Hc', Hp'. repeat split.
  intros H. apply Hh, pre_save_holds, H.
Qed.

(** A full [Model.save] always succeeds: it writes the row of the instance
    under its key (a fresh one when it has none). *)
Lemma Model_save_full (fn : string) (file : File) (self : Instance) (w : World) :
  exists self1 k,
    Model_save self None w
    = (Ok self1, put (cls self) k (row_of self1) None w)
    /\ cls self1 = cls self /\ pk self1 = Some k
    /\ (holds fn file self -> holds fn file self1).
Proof.
  unfold Model_save.
  destruct (fold_pre_save fn file
              (List.filter is_file_field (_meta_fields (cls self))) self)
    as (Hc & Hp & Hh).
  set (self0 := List.fold_left pre_save _ self) in *.
  set (k := match pk self0 with
            | Some k => k
            | None => next_pk (table w (cls self0))
            end).
  exists {| cls := cls self0; pk := Some k; attrs := attrs self0;
            is_published := is_published self0 |}, k.
  split; [simpl; rewrite <- Hc; reflexivity|].
  split; [exact Hc|]. split; [reflexivity|].
  intros H. destruct (Hh H) as (f & Hget & Hcf & Hn). exists f. auto.
Qed.

Lemma row_of_column (self : Instance) (fn : string) :
  In fn (file_fields (cls self)) ->
  columns (row_of self) !! fn = Some (getattr self fn).
Proof.
  unfold row_of; simpl. induction (file_fields (cls self)) as [|n l IH]; simpl.
  - tauto.
  - intros Hin. destruct (decide (n = fn)) as [->|Hne].
    + apply lookup_insert_eq.
    + rewrite lookup_insert_ne by exact Hne. apply IH.
      destruct Hin; [contradiction|assumption].
Qed.

Lemma _compress_image_field_undecodable (self : Instance) (fn : string)
    (config : list (string * Z)) (f : File) :
  getattr self fn = Some f -> name f <> "" -> decoded (content f) = None ->
  _compress_image_field self fn config = Raise UnidentifiedImageError.
Proof.
  intros Hget Hn Hd. unfold _compress_image_field, Image_open.
  now rewrite Hget, (truthy_named f Hn), Hd.
Qed.

(** [_compress_image_field] changes no other field, and the one error it
    can raise is the decoding error of [Image.open]. *)
Lemma _compress_image_field_outcome (self : Instance) (n : string)
    (config : list (string * Z)) :
  (exists self', _compress_image_field self n config = Ok self'
                 /\ forall n', n <> n' -> getattr self' n' = getattr self n')
  \/ _compress_image_field self n config = Raise UnidentifiedImageError.
Proof.
  unfold _compress_image_field, Image_open.
  destruct (getattr self n) as [f|]; [|left; eauto].
  destruct (negb (truthy (Some f))); [left; eauto|].
  destruct (decoded (content f)); [left|right; reflexivity].
  eexists. split; [reflexivity|]. intros n' Hne. now apply getattr_setattr_ne.
Qed.

Lemma compress_items_undecodable (items : list (string * list (string * Z)))
    (self : Instance) (fn : string) (f : File) :
  In fn (List.map fst items) ->
  getattr self fn = Some f -> name f <> "" -> decoded (content f) = None ->
  compress_items items self = Raise UnidentifiedImageError.
Proof.
  revert self. induction items as [|[n config] items IH]; simpl; intros self Hin Hget Hn Hd.
  - tauto.
  - destruct (String.eqb_spec n fn) as [->|Hne].
    + now rewrite (_compress_image_field_undecodable self fn config f Hget Hn Hd).
    + destruct (_compress_image_field_outcome self n config)
        as [(self' & -> & Hsame) | ->]; [|reflexivity].
      apply IH; [destruct Hin; [contradiction|assumption] | | exact Hn | exact Hd].
      now rewrite (Hsame fn Hne).
Qed.

End DecodeFailure.

(** C6: on a model whose class lists the mixin first, when a field of the
    policy map holds a named upload that does not decode, [save] raises the
    decoding error, the only write is the first, full one, and the record it
    stored keeps the uploaded bytes in that field. *)
Theorem save_decode_failure (self : Instance) (w : World) (fn : string)
    (file : File) :
  cls self = Excursion \/ cls self = ExcursionImage ->
  In fn (List.map fst (image_compression_config (cls self))) ->
  getattr self fn = Some file ->
  name file <> "" ->
  decoded (content file) = None ->
  exists self1 w1 k stored,
    Model_save self None w = (Ok self1, w1)
    /\ save self w = (Raise UnidentifiedImageError, w1)
    /\ writes w1 = writes w ++ [mkWrite (db_table (cls self)) k None]
    /\ stored_file w1 (cls self) k fn = Some stored
    /\ content stored = content file
    /\ decoded (content stored) = None.
Proof.
  intros Hcls Hin Hget Hn Hd.
  assert (Hholds : holds fn file self) by (exists file; auto).
  destruct (Model_save_full fn file self w) as (self1 & k & Hms & Hc1 & Hpk & Hh).
  destruct (Hh Hholds) as (f1 & Hget1 & Hcont1 & Hn1).
  assert (Hff : In fn (file_fields (cls self1))).
  { rewrite Hc1. destruct Hcls as [E|E]; rewrite E in *; simpl in Hin |- *; tauto. }
  assert (Hraise : compress_images self1 = Raise UnidentifiedImageError).
  { unfold compress_images. rewrite Hc1.
    apply (compress_items_undecodable _ self1 fn f1 Hin Hget1 Hn1).
    now rewrite Hcont1. }
  exists self1, (put (cls self) k (row_of self1) None w), k, f1.
  split; [exact Hms|]. split.
  { unfold save. destruct Hcls as [E|E]; rewrite E in *; simpl;
      unfold bind, lift; rewrite Hms, Hraise; reflexivity. }
  split; [apply writes_put|].
  unfold stored_file. rewrite table_put, lookup_insert_eq.
  rewrite (row_of_column self1 fn Hff), Hget1.
  split; [reflexivity|]. split; [exact Hcont1|]. now rewrite Hcont1.
Qed.

Lemma save_decode_failure_witness :
  exists w1 k stored,
    save excursion_with_broken_cover empty_world = (Raise UnidentifiedImageError, w1)
    /\ writes w1 = [mkWrite "main_excursion" k None]
    /\ stored_file w1 Excursion k "cover" = Some stored
    /\ content stored = content broken_upload.
Proof.
  destruct (save_decode_failure excursion_with_broken_cover empty_world
              "cover" broken_upload)
    as (self1 & w1 & k & stored & Hms & Hsave & Hw & Hst & Hc & _);
    [left; reflexivity | left; reflexivity | reflexivity | discriminate
    | reflexivity |].
  exists w1, k, stored. repeat split; assumption.
Defined.

(** * Further properties of the code *)

(** ** [_compress_image_field] and [compress_images] *)

Lemma _compress_image_field_falsy (self : Instance) (fn : string)
    (config : list (string * Z)) :
  truthy (getattr self fn) = false ->
  _compress_image_field self fn config = Ok self.
Proof.
  intros Hf. unfold _compress_image_field.
  destruct (getattr self fn) as [f|]; [|reflexivity]. now rewrite Hf.
Qed.



Lemma thumbnail_mode (img : PIL.Image) (size : Z * Z) :
  PIL.mode (PIL.thumbnail img size) = PIL.mode img.
Proof.
  unfold PIL.thumbnail. destruct (PIL.preserve_aspect_ratio img size); reflexivity.
Qed.

Lemma processed_mode (config : list (string * Z)) (img : PIL.Image) :
  PIL.mode (processed config img) = "RGB".
Proof.
  unfold processed. rewrite thumbnail_mode.
  destruct (String.eqb_spec (PIL.mode img) "RGB") as [Hm|Hm]; simpl; auto.
Qed.

Lemma processed_fits (config : list (string * Z)) (img : PIL.Image) :
  0 < PIL.width img -> 0 < PIL.height img ->
  0 < config_get config "max_width" default_max_width ->
  0 < config_get config "max_height" default_max_height ->
  (PIL.width img <= config_get config "max_width" default_max_width
   /\ PIL.height img <= config_get config "max_height" default_max_height ->
   PIL.width (processed config img) = PIL.width img
   /\ PIL.height (processed config img) = PIL.height img)
  /\ 0 < PIL.width (processed config img)
     <= config_get config "max_width" default_max_width
  /\ 0 < PIL.height (processed config img)
     <= config_get config "max_height" default_max_height.
Proof.
  intros Hw Hh Hmw Hmh.
  destruct (processed_size config img) as [-> ->]. unfold PIL.thumbnail.
  set (mw := config_get config "max_width" default_max_width) in *.
  set (mh := config_get config "max_height" default_max_height) in *.
  destruct (Z_le_dec (PIL.width img) mw) as [Hfw|Hfw];
    [destruct (Z_le_dec (PIL.height img) mh) as [Hfh|Hfh]|].
  - rewrite (preserve_aspect_ratio_fits img mw mh Hfw Hfh). lia.
  - destruct (preserve_aspect_ratio_shrinks img mw mh Hw Hh Hmw Hmh)
      as (x' & y' & -> & H1 & H2 & _); simpl; lia.
  - destruct (preserve_aspect_ratio_shrinks img mw mh Hw Hh Hmw Hmh)
      as (x' & y' & -> & H1 & H2 & _); simpl; lia.
Qed.

(** X2: the picture the utility encodes is always in mode RGB, and the
    utility is idempotent on pictures: run on its own output with the same
    policy it returns that picture again, so saving a record a second time
    does not shrink its images further. *)
Theorem processed_idempotent (config : list (string * Z)) (img : PIL.Image) :
  0 < PIL.width img -> 0 < PIL.height img ->
  0 < config_get config "max_width" default_max_width ->
  0 < config_get config "max_height" default_max_height ->
  PIL.mode (processed config img) = "RGB"
  /\ processed config (processed config img) = processed config img.
Proof.
  intros Hw Hh Hmw Hmh. split; [apply processed_mode|].
  destruct (processed_fits config img Hw Hh Hmw Hmh) as (_ & Hx & Hy).
  unfold processed at 1. rewrite processed_mode. simpl.
  unfold PIL.thumbnail.
  rewrite preserve_aspect_ratio_fits; [reflexivity | lia | lia].
Qed.

Lemma processed_idempotent_witness :
  processed cover_policy (processed cover_policy (PIL.mkImage 4000 3000 "RGBA"))
  = processed cover_policy (PIL.mkImage 4000 3000 "RGBA").
Proof.
  apply (proj2 (processed_idempotent cover_policy (PIL.mkImage 4000 3000 "RGBA")
                  ltac:(reflexivity) ltac:(reflexivity)
                  ltac:(reflexivity) ltac:(reflexivity))).
Defined.

Lemma compress_items_ok (items : list (string * list (string * Z)))
    (self : Instance) :
  List.NoDup (List.map fst items) ->
  (forall fn cfg f, In (fn, cfg) items -> getattr self fn = Some f ->
                    name f <> "" -> decoded (content f) <> None) ->
  exists self',
    compress_items items self = Ok self'
    /\ cls self' = cls self /\ pk self' = pk self
    /\ is_published self' = is_published self
    /\ (forall n, ~ In n (List.map fst items) -> getattr self' n = getattr self n)
    /\ (forall n, truthy (getattr self n) = false -> getattr self' n = getattr self n)
    /\ (forall fn cfg f img,
          In (fn, cfg) items -> getattr self fn = Some f -> name f <> "" ->
          decoded (content f) = Some img ->
          getattr self' fn
          = Some (InMemoryUploadedFile (processed cfg img)
                    (JPEG (config_get cfg "quality" default_quality) true)
                    (pathlib.stem (name f) +:+ ".jpg") "image/jpeg")).
Proof.
  revert self. induction items as [|[n cfg] rest IH]; intros self Hnd Hdec.
  { exists self. simpl. repeat split; auto. intros fn cfg f img []. }
  simpl in Hnd. apply List.NoDup_cons_iff in Hnd as [Hn Hnd].
  destruct (truthy (getattr self n)) eqn:Ht.
  - destruct (getattr self n) as [f|] eqn:Hget; [|discriminate].
    assert (Hname : name f <> "").
    { intros E. unfold truthy in Ht. rewrite E in Ht. discriminate. }
    destruct (decoded (content f)) as [img|] eqn:Hd.
    2:{ exfalso. apply (Hdec n cfg f); auto. now left. }
    pose proof (_compress_image_field_ok self n cfg f img Hget Hname Hd) as Hrun.
    set (out := InMemoryUploadedFile _ _ _ _) in Hrun.
    destruct (IH (setattr self n out) Hnd) as (self' & Hc & H1 & H2 & H3 & H4 & H5 & H6).
    { intros fn cfg' f' Hin Hg. apply (Hdec fn cfg' f'); [now right|].
      rewrite getattr_setattr_ne in Hg; [exact Hg|].
      intros ->. apply Hn. apply (List.in_map fst) in Hin. exact Hin. }
    exists self'. simpl. rewrite Hrun. split; [exact Hc|].
    do 3 (split; [assumption|]). split; [|split].
    + intros n' Hn'. rewrite H4 by tauto. apply getattr_setattr_ne. tauto.
    + intros n' Hf. destruct (String.eqb_spec n n') as [<-|Hne].
      { rewrite Hget, Ht in Hf. discriminate. }
      rewrite H5; rewrite getattr_setattr_ne by exact Hne; auto.
    + intros fn cfg' f' img' [Heq|Hin] Hg Hnm Hd'.
      * injection Heq as <- <-. rewrite Hget in Hg. injection Hg as <-.
        rewrite Hd in Hd'. injection Hd' as <-.
        rewrite H4 by exact Hn. apply getattr_setattr.
      * assert (Hne : n <> fn).
        { intros ->. apply Hn. apply (List.in_map fst) in Hin. exact Hin. }
        apply (H6 fn cfg' f' img' Hin); auto.
        now rewrite getattr_setattr_ne.
  - destruct (IH self Hnd) as (self' & Hc & H1 & H2 & H3 & H4 & H5 & H6).
    { intros fn cfg' f' Hin. apply (Hdec fn cfg' f'). now right. }
    exists self'. simpl. rewrite (_compress_image_field_falsy self n cfg Ht).
    split; [exact Hc|]. do 3 (split; [assumption|]). split; [|split].
    + intros n' Hn'. apply H4. tauto.
    + exact H5.
    + intros fn cfg' f' img' [Heq|Hin] Hg Hnm Hd'.
      * injection Heq as <- <-. rewrite Hg in Ht. unfold truthy in Ht.
        destruct (String.eqb_spec (name f') ""); [tauto|discriminate].
      * apply (H6 fn cfg' f' img' Hin); auto.
Qed.

Lemma config_keys_nodup (m : Model) :
  List.NoDup (List.map fst (image_compression_config m)).
Proof.
  destruct m; simpl; repeat constructor; simpl; intuition discriminate.
Qed.

(** X3: when every named field of the class's policy map decodes,
    [compress_images] succeeds; it replaces each such field by the JPEG
    upload built from its own policy, and leaves empty fields, fields outside
    the policy map, the class, the key and the flag as they were. *)
Theorem compress_images_ok (self : Instance) :
  (forall fn cfg f, In (fn, cfg) (image_compression_config (cls self)) ->
                    getattr self fn = Some f -> name f <> "" ->
                    decoded (content f) <> None) ->
  exists self',
    compress_images self = Ok self'
    /\ cls self' = cls self /\ pk self' = pk self
    /\ is_published self' = is_published self
    /\ (forall n, ~ In n (List.map fst (image_compression_config (cls self))) ->
                  getattr self' n = getattr self n)
    /\ (forall n, truthy (getattr self n) = false -> getattr self' n = getattr self n)
    /\ (forall fn cfg f img,
          In (fn, cfg) (image_compression_config (cls self)) ->
          getattr self fn = Some f -> name f <> "" ->
          decoded (content f) = Some img ->
          getattr self' fn
          = Some (InMemoryUploadedFile (processed cfg img)
                    (JPEG (config_get cfg "quality" default_quality) true)
                    (pathlib.stem (name f) +:+ ".jpg") "image/jpeg")).
Proof.
  intros Hdec. unfold compress_images.
  apply compress_items_ok; [apply config_keys_nodup | exact Hdec].
Qed.

Lemma compress_images_ok_witness :
  exists self',
    compress_images excursion_with_cover = Ok self'
    /\ getattr self' "cover"
       = Some (mkFile "IMG_0042.jpg"
                 (mkPayload (Some (PIL.mkImage 1280 960 "RGB")) (JPEG 75 true))
                 "image/jpeg" false)
    /\ getattr self' "cover_head" = None.
Proof.
  destruct (compress_images_ok excursion_with_cover)
    as (self' & Hrun & _ & _ & _ & _ & Hempty & Hjpeg).
  { intros fn cfg f [Heq|[Heq|[]]] Hget; injection Heq as <- <-;
      vm_compute in Hget; [|discriminate Hget].
    injection Hget as <-. discriminate. }
  exists self'. split; [exact Hrun|]. split.
  - apply (Hjpeg "cover" cover_policy cover_upload (PIL.mkImage 4000 3000 "RGBA"));
      [left; reflexivity | reflexivity | discriminate | reflexivity].
  - rewrite (Hempty "cover_head"); reflexivity.
Defined.

(** ** [Model.save] on the modelled columns *)

Lemma elem_In (n : string) (l : list string) : elem n l = true <-> In n l.
Proof.
  unfold elem. rewrite List.existsb_exists. split.
  - intros (x & Hin & Heq). apply String.eqb_eq in Heq. now subst.
  - intros Hin. exists n. split; [exact Hin|apply String.eqb_refl].
Qed.

Lemma upload_to_cls (a b : Instance) (filename : string) :
  cls a = cls b -> upload_to a filename = upload_to b filename.
Proof. intros H. unfold upload_to. now rewrite H. Qed.

Lemma pre_save_flag (self : Instance) (g : Field) :
  is_published (pre_save self g) = is_published self.
Proof.
  unfold pre_save. destruct (getattr self (field_name g)) as [f|]; [|auto].
  destruct (truthy (Some f) && negb (committed f)); auto.
Qed.

Lemma getattr_pre_save (self0 self : Instance) (g : Field) (fn : string) :
  cls self0 = cls self ->
  field_upload_to g = Some fn_upload_to ->
  getattr (pre_save self g) fn
  = if String.eqb (field_name g) fn then presaved self0 (getattr self fn)
    else getattr self fn.
Proof.
  intros Hcls Hup. unfold pre_save, presaved.
  destruct (String.eqb_spec (field_name g) fn) as [<-|Hne].
  - destruct (getattr self (field_name g)) as [f|] eqn:Hget; [|now rewrite Hget].
    destruct (truthy (Some f) && negb (committed f)); [|now rewrite Hget].
    rewrite getattr_setattr. unfold generate_filename. rewrite Hup.
    now rewrite (upload_to_cls self0 self _ Hcls).
  - destruct (getattr self (field_name g)) as [f|]; [|reflexivity].
    destruct (truthy (Some f) && negb (committed f)); [|reflexivity].
    now apply getattr_setattr_ne.
Qed.

Lemma fold_pre_save_getattr (self0 : Instance) (fields : list Field)
    (self : Instance) (fn : string) :
  cls self0 = cls self ->
  List.NoDup (List.map field_name fields) ->
  (forall g, In g fields -> field_upload_to g = Some fn_upload_to) ->
  getattr (List.fold_left pre_save fields self) fn
  = if elem fn (List.map field_name fields)
    then presaved self0 (getattr self fn) else getattr self fn.
Proof.
  revert self. induction fields as [|g fields IH]; intros self Hcls Hnd Hup;
    [reflexivity|].
  simpl in Hnd. apply List.NoDup_cons_iff in Hnd as [Hg Hnd].
  cbn [List.fold_left List.map]. rewrite IH; auto.
  2:{ rewrite Hcls. symmetry. apply pre_save_cls_pk. }
  2:{ intros g' Hin. apply Hup. now right. }
  rewrite (getattr_pre_save self0 self g fn Hcls (Hup g (or_introl eq_refl))).
  unfold elem at 2. cbn [List.existsb]. fold (elem fn (List.map field_name fields)).
  rewrite (String.eqb_sym fn (field_name g)).
  destruct (String.eqb_spec (field_name g) fn) as [<-|Hne]; simpl.
  - destruct (elem (field_name g) (List.map field_name fields)) eqn:He;
      [|reflexivity].
    apply elem_In in He. contradiction.
  - reflexivity.
Qed.

Lemma fold_pre_save_flag (fields : list Field) (self : Instance) :
  is_published (List.fold_left pre_save fields self) = is_published self.
Proof.
  revert self. induction fields as [|g fields IH]; intros self; simpl; [reflexivity|].
  now rewrite IH, pre_save_flag.
Qed.

Lemma NoDup_map_filter {A B} (f : A -> B) (p : A -> bool) (l : list A) :
  List.NoDup (List.map f l) -> List.NoDup (List.map f (List.filter p l)).
Proof.
  induction l as [|a l IH]; simpl; intros Hnd; [constructor|].
  apply List.NoDup_cons_iff in Hnd as [Ha Hnd]. destruct (p a); simpl; auto.
  constructor; auto. intros Hin. apply Ha.
  apply List.in_map_iff in Hin as (x & Hx & Hin).
  apply List.filter_In in Hin as [Hin _]. apply List.in_map_iff. eauto.
Qed.

Lemma field_names_nodup (m : Model) :
  List.NoDup (List.map field_name (_meta_fields m)).
Proof.
  destruct m; simpl; repeat constructor; simpl; intuition discriminate.
Qed.

Lemma file_field_upload_to (g : Field) :
  is_file_field g = true -> field_upload_to g = Some fn_upload_to.
Proof.
  unfold is_file_field. destruct (field_upload_to g) as [[]|]; [reflexivity|discriminate].
Qed.

(** A full [Model.save]: the row written is the instance's, with every
    upload of a file field committed. *)
Lemma Model_save_insert (self : Instance) (w : World) :
  exists self1 k,
    Model_save self None w
    = (Ok self1, put (cls self) k (row_of self1) None w)
    /\ cls self1 = cls self /\ pk self1 = Some k
    /\ (forall k0, pk self = Some k0 -> k = k0)
    /\ is_published self1 = is_published self
    /\ forall fn, getattr self1 fn
                  = if elem fn (file_fields (cls self))
                    then presaved self (getattr self fn) else getattr self fn.
Proof.
  unfold Model_save.
  set (fields := List.filter is_file_field (_meta_fields (cls self))).
  destruct (fold_pre_save "" cover_upload fields self) as (Hc & Hp & _).
  pose proof (fold_pre_save_flag fields self) as Hf.
  assert (Hg : forall fn, getattr (List.fold_left pre_save fields self) fn
                          = if elem fn (file_fields (cls self))
                            then presaved self (getattr self fn)
                            else getattr self fn).
  { intros fn. apply fold_pre_save_getattr; [reflexivity| |].
    - apply NoDup_map_filter, field_names_nodup.
    - intros g Hin. apply List.filter_In in Hin as [_ Hin].
      now apply file_field_upload_to. }
  set (self0 := List.fold_left pre_save fields self) in *.
  set (k := match pk self0 with
            | Some k => k
            | None => next_pk (table w (cls self0))
            end).
  exists {| cls := cls self0; pk := Some k; attrs := attrs self0;
            is_published := is_published self0 |}, k.
  split; [simpl; rewrite <- Hc; reflexivity|].
  split; [exact Hc|]. split; [reflexivity|]. split.
  { intros k0 Hk0. unfold k. rewrite Hp, Hk0. reflexivity. }
  split; [exact Hf|]. exact Hg.
Qed.




(** ** [ImageCompressionMixin.save] from end to end *)





(** ** Models without the mixin, and what a successful [save] leaves *)




Lemma Model_save_Ok (self : Instance) (uf : option (list string))
    (w : World) (self' : Instance) (w' : World) :
  Model_save self uf w = (Ok self', w') ->
  cls self' = cls self
  /\ is_published self' = is_published self
  /\ (forall k0, pk self = Some k0 -> pk self' = Some k0)
  /\ match uf with
     | None =>
         exists k, pk self' = Some k
                   /\ table w' (cls self) !! k = Some (row_of self')
     | Some [] => self' = self /\ w' = w
     | Some fs =>
         exists k r, pk self' = Some k
                     /\ table w (cls self) !! k = Some r
                     /\ table w' (cls self) !! k = Some (update_row self' fs r)
     end.
Proof.
  destruct uf as [[|n0 fs0]|].
  - intros [= <- <-]. auto.
  - set (fs := n0 :: fs0). intros H. unfold Model_save in H. fold fs in H.
    destruct (negb (List.forallb _ fs)); [discriminate|].
    set (fields := List.filter _ (_meta_fields (cls self))) in H.
    destruct (fold_pre_save "" cover_upload fields self) as (Hc & Hp & _).
    pose proof (fold_pre_save_flag fields self) as Hf.
    set (self0 := List.fold_left pre_save fields self) in *.
    destruct (pk self0) as [k|] eqn:Hk; [|discriminate].
    destruct (table w (cls self0) !! k) as [r|] eqn:Hr; [|discriminate].
    injection H as <- <-. rewrite Hc in *.
    split; [reflexivity|]. split; [exact Hf|]. split; [intros k0 E; congruence|].
    exists k, r. split; [exact Hk|]. split; [exact Hr|].
    now rewrite table_put, lookup_insert_eq.
  - intros H. destruct (Model_save_insert self w)
      as (self1 & k & Hms & Hc1 & Hpk1 & Hk & Hf1 & _).
    rewrite Hms in H. injection H as <- <-.
    split; [exact Hc1|]. split; [exact Hf1|]. split.
    + intros k0 E. now rewrite Hpk1, (Hk k0 E).
    + exists k. split; [exact Hpk1|]. now rewrite table_put, lookup_insert_eq.
Qed.

Lemma compress_items_frame (items : list (string * list (string * Z)))
    (self self' : Instance) :
  compress_items items self = Ok self' ->
  cls self' = cls self /\ pk self' = pk self
  /\ is_published self' = is_published self.
Proof.
  revert self. induction items as [|[n cfg] rest IH]; simpl; intros self H.
  - injection H as <-. auto.
  - destruct (_compress_image_field_outcome self n cfg) as [(s1 & Hs1 & _) | Hr];
      [|rewrite Hr in H; discriminate].
    rewrite Hs1 in H. destruct (IH s1 H) as (H1 & H2 & H3).
    unfold _compress_image_field in Hs1.
    destruct (getattr self n) as [f|]; [|injection Hs1 as <-; auto].
    destruct (negb (truthy (Some f))); [injection Hs1 as <-; auto|].
    destruct (Image_open f); [|discriminate].
    injection Hs1 as <-. auto.
Qed.

Lemma objects_exists_lookup (m : Model) (w : World) (k : Z) (r : Row) :
  table w m !! k = Some r -> objects_exists m w = true.
Proof.
  intros H. unfold objects_exists. destruct (bool_decide_reflect (table w m = ∅)) as [E|E];
    [|reflexivity].
  rewrite E, lookup_empty in H. discriminate.
Qed.

(** Whatever the class, a [save] that returns leaves a stored record under
    the key of the returned instance, with the flag of the instance. *)
Lemma save_Ok_row (self : Instance) (w : World) (self' : Instance) (w' : World) :
  save self w = (Ok self', w') ->
  exists k r, pk self' = Some k /\ cls self' = cls self
              /\ table w' (cls self) !! k = Some r
              /\ published r = is_published self.
Proof.
  assert (Hplain : forall s, cls s = cls self ->
            is_published s = is_published self ->
            Model_save s None w = (Ok self', w') ->
            exists k r, pk self' = Some k /\ cls self' = cls self
                        /\ table w' (cls self) !! k = Some r
                        /\ published r = is_published self).
  { intros s Hcs Hfs H.
    destruct (Model_save_Ok s None w self' w' H) as (Hc & Hf & _ & k & Hk & Hr).
    exists k, (row_of self'). rewrite <- Hcs.
    repeat split; auto; try congruence; simpl; congruence. }
  assert (Hmixin :
            bind (Model_save self None)
              (fun s => bind (lift (compress_images s))
                 (fun s2 => Model_save s2
                    (Some (List.map fst (image_compression_config (cls s2)))))) w
            = (Ok self', w') ->
            exists k r, pk self' = Some k /\ cls self' = cls self
                        /\ table w' (cls self) !! k = Some r
                        /\ published r = is_published self).
  { unfold bind, lift. intros H.
    destruct (Model_save self None w) as [[s1|e] w1] eqn:H1; [|discriminate].
    destruct (compress_images s1) as [s2|e] eqn:H2; [|discriminate].
    destruct (Model_save_Ok self None w s1 w1 H1) as (Hc1 & Hf1 & _ & k & Hk1 & Hr1).
    destruct (compress_items_frame _ s1 s2 H2) as (Hc2 & Hk2 & Hf2).
    destruct (Model_save_Ok s2 _ w1 self' w' H) as (Hc3 & Hf3 & Hk3 & Hcase).
    assert (Hpk : pk self' = Some k) by (apply Hk3; congruence).
    destruct (List.map fst (image_compression_config (cls s2))) as [|n0 fs0] eqn:Hkeys.
    - destruct Hcase as [-> ->]. exists k, (row_of s1).
      repeat split; auto; try congruence; simpl; congruence.
    - destruct Hcase as (k' & r & Hk' & Hr & Hr').
      assert (k' = k) by congruence. subst k'.
      rewrite Hc2, Hc1 in Hr, Hr'. rewrite Hr1 in Hr. injection Hr as <-.
      exists k, (update_row self' (n0 :: fs0) (row_of s1)).
      repeat split; auto; try congruence;
        cbn [published update_row row_of];
        destruct (elem "is_published" (n0 :: fs0) || elem "is_active" (n0 :: fs0));
        congruence. }
  unfold save. destruct (cls self) eqn:Hcls; cbn [mro bases save_from].
  - destruct (pk_falsy self); [|apply Hplain; auto].
    cbv beta. rewrite ?Hcls.
    destruct (objects_exists SiteSettings w); [intros [=]|].
    apply Hplain; auto.
  - apply Hmixin.
  - apply Hmixin.
  - apply Hplain; auto.
  - apply Hplain; auto.
  - apply Hplain; auto.
Qed.

(** X6: a record whose [save] returned is in the collection its list
    helper returns from then on, under the key [save] gave it and with the
    flag it was saved with, published or not. *)
Theorem saved_record_is_listed (self : Instance) (w : World)
    (self' : Instance) (w' : World) :
  save self w = (Ok self', w') ->
  exists k o,
    pk self' = Some k
    /\ In o (objects_all (cls self) w')
    /\ pk o = Some k /\ is_published o = is_published self
    /\ (cls self = Excursion ->
        exists l, get_excursion_list w' = (Ok l, w') /\ In o l)
    /\ (cls self = Review ->
        exists l, get_review_list w' = (Ok l, w') /\ In o l)
    /\ (cls self = FAQ ->
        exists l, get_faq_list w' = (Ok l, w') /\ In o l).
Proof.
  intros H. destruct (save_Ok_row self w self' w' H) as (k & r & Hk & _ & Hr & Hp).
  pose proof (objects_all_complete (cls self) w' k r Hr) as Hin.
  exists k, (instance_of_row (cls self) k r).
  split; [exact Hk|]. split; [exact Hin|]. split; [reflexivity|]. split; [exact Hp|].
  repeat split; intros E; rewrite E in Hin |- *; eexists;
    (split; [reflexivity|exact Hin]).
Qed.

Lemma saved_record_is_listed_witness :
  exists k o,
    In o (objects_all FAQ (snd (save unpublished_faq empty_world)))
    /\ pk o = Some k /\ is_published o = false.
Proof.
  pose proof (saved_record_is_listed unpublished_faq empty_world) as T.
  destruct (save unpublished_faq empty_world) as [[s|e] w'] eqn:H;
    [|vm_compute in H; discriminate].
  destruct (T s w' eq_refl) as (k & o & _ & Hin & Hk & Hp & _).
  exists k, o. auto.
Defined.

(** ** [SiteSettings.save] and [load] *)

(** X7: the guard of [SiteSettings.save] looks at a missing key only.  An
    instance that carries a key other than 0 is written under that key even
    when a settings record exists: no error is raised, there is one write,
    and the records under other keys stay, so the table can end with two
    settings records. *)
Theorem SiteSettings_save_with_key (self : Instance) (w : World) (k : Z) :
  cls self = SiteSettings -> pk self = Some k -> k <> 0 ->
  exists self' w',
    save self w = (Ok self', w')
    /\ pk self' = Some k
    /\ writes w' = writes w ++ [mkWrite "main_sitesettings" k None]
    /\ is_Some (table w' SiteSettings !! k)
    /\ (forall k', k' <> k ->
          table w' SiteSettings !! k' = table w SiteSettings !! k').
Proof.
  intros Hcls Hpk Hk.
  assert (Hsave : save self w = Model_save self None w).
  { unfold save. rewrite Hcls. cbn [mro bases save_from].
    unfold pk_falsy. rewrite Hpk. apply Z.eqb_neq in Hk. now rewrite Hk. }
  destruct (Model_save_insert self w) as (self1 & k1 & Hms & Hc1 & Hpk1 & Hk1 & _).
  rewrite <- (Hk1 k Hpk) in *. rewrite Hcls in Hms.
  exists self1, (put SiteSettings k1 (row_of self1) None w).
  split; [now rewrite Hsave|]. split; [exact Hpk1|]. split; [apply writes_put|].
  rewrite table_put. split.
  - rewrite lookup_insert_eq. eauto.
  - intros k' Hne. now rewrite lookup_insert_ne.
Qed.

Lemma SiteSettings_save_with_key_witness :
  exists self' w',
    save (new_instance SiteSettings (Some 2)) settings_world = (Ok self', w')
    /\ is_Some (table w' SiteSettings !! 2)
    /\ table w' SiteSettings !! 1 = Some (mkRow ∅ true).
Proof.
  destruct (SiteSettings_save_with_key (new_instance SiteSettings (Some 2))
              settings_world 2 eq_refl eq_refl ltac:(discriminate))
    as (self' & w' & Hsave & _ & _ & H2 & Hother).
  exists self', w'. split; [exact Hsave|]. split; [exact H2|].
  rewrite (Hother 1) by discriminate. reflexivity.
Defined.

(** X8: with no settings record stored, [save] of an instance whose key is
    missing or 0 gives it the key 1 and writes that one record. *)
Theorem SiteSettings_save_first (self : Instance) (w : World) :
  cls self = SiteSettings -> pk self = None \/ pk self = Some 0 ->
  objects_exists SiteSettings w = false ->
  exists self' w',
    save self w = (Ok self', w')
    /\ pk self' = Some 1
    /\ writes w' = writes w ++ [mkWrite "main_sitesettings" 1 None]
    /\ table w' SiteSettings = {[ 1 := row_of self' ]}
    /\ objects_exists SiteSettings w' = true.
Proof.
  intros Hcls Hpk Hex.
  assert (Hsave : save self w = Model_save (set_pk self 1) None w).
  { unfold save. rewrite Hcls. cbn [mro bases save_from].
    assert (Hf : pk_falsy self = true)
      by (unfold pk_falsy; destruct Hpk as [-> | ->]; reflexivity).
    rewrite Hf, Hcls, Hex. reflexivity. }
  destruct (Model_save_insert (set_pk self 1) w)
    as (self1 & k1 & Hms & Hc1 & Hpk1 & Hk1 & _).
  rewrite <- (Hk1 1 eq_refl) in *. simpl cls in Hms, Hc1. rewrite Hcls in Hms.
  assert (Hempty : table w SiteSettings = ∅).
  { unfold objects_exists in Hex. apply negb_false_iff in Hex.
    now apply bool_decide_eq_true in Hex. }
  exists self1, (put SiteSettings k1 (row_of self1) None w).
  split; [now rewrite Hsave|]. split; [exact Hpk1|]. split; [apply writes_put|].
  rewrite table_put, Hempty. split; [reflexivity|].
  apply (objects_exists_lookup _ _ k1 (row_of self1)).
  now rewrite table_put, lookup_insert_eq.
Qed.

Lemma SiteSettings_save_first_witness :
  exists self' w',
    save (new_instance SiteSettings (Some 0)) empty_world = (Ok self', w')
    /\ pk self' = Some 1.
Proof.
  destruct (SiteSettings_save_first (new_instance SiteSettings (Some 0))
              empty_world eq_refl (or_intror eq_refl) eq_refl)
    as (self' & w' & Hsave & Hpk & _).
  exists self', w'. auto.
Defined.

Lemma SiteSettings_save_with_key_aux (w : World) :
  exists self1,
    save (new_instance SiteSettings (Some 1)) w
    = (Ok self1, put SiteSettings 1 (row_of self1) None w)
    /\ pk self1 = Some 1.
Proof.
  destruct (Model_save_insert (new_instance SiteSettings (Some 1)) w)
    as (self1 & k1 & Hms & _ & Hpk1 & Hk1 & _).
  assert (k1 = 1) by (apply Hk1; reflexivity). subst k1.
  exists self1. split; [exact Hms|exact Hpk1].
Qed.

(** X9: [load] writes at most once.  On a database that has the record of
    key 1 it returns that record and changes nothing; otherwise it writes
    exactly the record of key 1 and leaves the other records; in both cases a
    second [load] returns the stored record of key 1 and changes nothing. *)
Theorem load_idempotent (w : World) :
  exists obj w1 r,
    load w = (Ok obj, w1)
    /\ table w1 SiteSettings !! 1 = Some r
    /\ load w1 = (Ok (instance_of_row SiteSettings 1 r), w1)
    /\ (forall r0, table w SiteSettings !! 1 = Some r0 ->
          w1 = w /\ obj = instance_of_row SiteSettings 1 r0)
    /\ (table w SiteSettings !! 1 = None ->
          writes w1 = writes w ++ [mkWrite "main_sitesettings" 1 None]
          /\ forall k, k <> 1 ->
               table w1 SiteSettings !! k = table w SiteSettings !! k).
Proof.
  destruct (table w SiteSettings !! 1) as [r0|] eqn:Hrow.
  - exists (instance_of_row SiteSettings 1 r0), w, r0.
    unfold load. rewrite Hrow. repeat split; auto; try congruence; discriminate.
  - destruct (SiteSettings_save_with_key_aux w) as (self1 & Hms & Hpk1).
    exists self1, (put SiteSettings 1 (row_of self1) None w), (row_of self1).
    assert (Hl : table (put SiteSettings 1 (row_of self1) None w) SiteSettings !! 1
                 = Some (row_of self1))
      by (now rewrite table_put, lookup_insert_eq).
    split; [unfold load; rewrite Hrow; exact Hms|]. split; [exact Hl|].
    split; [unfold load; now rewrite Hl|]. split; [discriminate|].
    intros _. split; [apply writes_put|].
    intros k Hne. now rewrite table_put, lookup_insert_ne.
Qed.

Lemma load_idempotent_witness :
  load settings_world
  = (Ok (instance_of_row SiteSettings 1 (mkRow ∅ true)), settings_world).
Proof.
  destruct (load_idempotent settings_world) as (obj & w1 & r & Hl & _ & _ & Hsame & _).
  destruct (Hsame (mkRow ∅ true) eq_refl) as [-> ->]. exact Hl.
Defined.

(** X10: after [load], on any database, the admin refuses to add a
    settings record whatever the base permission is, and [save] of a new
    instance without a key raises the validation error and changes nothing. *)
Theorem load_closes_creation (request : Type)
    (ModelAdmin_has_add_permission : request -> bool) (req : request) (w : World) :
  exists obj w1 msg,
    load w = (Ok obj, w1)
    /\ objects_exists SiteSettings w1 = true
    /\ has_add_permission request ModelAdmin_has_add_permission req w1
       = (Ok false, w1)
    /\ save (new_instance SiteSettings None) w1 = (Raise (ValidationError msg), w1).
Proof.
  destruct (load_ok w) as (obj & w1 & Hl & _ & _ & r & Hr).
  pose proof (objects_exists_lookup SiteSettings w1 1 r Hr) as Hex.
  exists obj, w1. eexists. split; [exact Hl|]. split; [exact Hex|].
  split.
  - unfold has_add_permission. now rewrite Hex.
  - unfold save. cbn [mro bases save_from cls new_instance pk_falsy pk].
    cbv beta. rewrite Hex. reflexivity.
Qed.

(** ** The upload path *)


(** X11: the path [upload_to] builds is the application label, the
    lower-cased class name, the first file field of the model ([file] when
    the model has none) and the file name, joined by [/]; for a plain file
    name the last component of the path is that name again, and the stem of
    the path of [base.ext] is [base]. *)
Theorem upload_to_path (instance : Instance) (filename : string) :
  upload_to instance filename
  = (app_label (cls instance) +:+ "/" +:+ lower (class_name (cls instance))
     +:+ "/" +:+ List.hd "file" (file_fields (cls instance)))
    +:+ "/" +:+ filename
  /\ (occurs "/" filename = false -> filename <> "" -> filename <> "." ->
      pathlib.name (upload_to instance filename) = filename)
  /\ (forall base ext,
        filename = base +:+ "." +:+ ext ->
        occurs "/" base = false -> occurs "/" ext = false ->
        occurs "." ext = false -> base <> "" -> ext <> "" ->
        pathlib.stem (upload_to instance filename) = base).
Proof.
  assert (Hshape : upload_to instance filename
                   = (app_label (cls instance) +:+ "/"
                      +:+ lower (class_name (cls instance))
                      +:+ "/" +:+ List.hd "file" (file_fields (cls instance)))
                     +:+ "/" +:+ filename).
  { destruct instance as [c k a p]. destruct c; reflexivity. }
  split; [exact Hshape|]. rewrite Hshape. split.
  - intros H1 H2 H3. apply (name_of_file _ filename H1 H2 H3).
  - intros base ext -> Hb He Hd Hbase Hext.
    apply (stem_drops_extension _ base ext Hb He Hd Hbase Hext).
Qed.

Lemma upload_to_path_witness :
  pathlib.name (upload_to excursion_with_head "a.png") = "a.png"
  /\ pathlib.stem (upload_to excursion_with_head "a.png") = "a".
Proof.
  destruct (upload_to_path excursion_with_head "a.png") as (_ & Hn & Hs).
  split.
  - apply Hn; [reflexivity | discriminate | discriminate].
  - apply (Hs "a" "png"); try reflexivity; discriminate.
Defined.

(** ** The side of the box a thumbnail fills *)

Lemma preserve_aspect_ratio_side (self : PIL.Image) (x y : Z) :
  0 < PIL.width self -> 0 < PIL.height self -> 0 < x -> 0 < y ->
  ~ (PIL.width self <= x /\ PIL.height self <= y) ->
  (PIL.width self * y <= x * PIL.height self
   /\ exists r, PIL.preserve_aspect_ratio self (x, y) = Some (r, y)
                /\ Z.abs (r * PIL.height self - y * PIL.width self)
                   < PIL.height self)
  \/ (x * PIL.height self < PIL.width self * y
      /\ exists r, PIL.preserve_aspect_ratio self (x, y) = Some (x, r)
                   /\ Z.abs (r * PIL.width self - x * PIL.height self)
                      < PIL.width self).
Proof.
  destruct self as [w h m]; simpl. intros Hw Hh Hx Hy Hbig.
  unfold PIL.preserve_aspect_ratio; simpl.
  destruct ((w <=? x) && (h <=? y)) eqn:Hfit.
  { apply andb_prop in Hfit as [H1 H2].
    apply Z.leb_le in H1, H2. tauto. }
  destruct w as [|pw|]; try lia. destruct h as [|ph|]; try lia.
  destruct x as [|px|]; try lia. destruct y as [|py|]; try lia.
  set (aspect := (inject_Z (Z.pos pw) / inject_Z (Z.pos ph))%Q).
  assert (Hasp : (aspect == Z.pos pw # ph)%Q) by apply Qdiv_inject_pos.
  destruct (Qle_bool aspect (inject_Z (Z.pos px) / inject_Z (Z.pos py))) eqn:Hcmp.
  - left. apply Qle_bool_iff in Hcmp.
    rewrite Hasp, Qdiv_inject_pos in Hcmp. unfold Qle in Hcmp; simpl in Hcmp.
    assert (Hq : (inject_Z (Z.pos py) * aspect == (Z.pos py * Z.pos pw) # ph)%Q).
    { rewrite Hasp. unfold Qmult, Qeq, inject_Z; simpl. lia. }
    destruct (round_aspect_spec _
                (fun n => Qabs (aspect - inject_Z n / inject_Z (Z.pos py))%Q)
                _ _ Hq ltac:(lia)) as (_ & Habs & _).
    split; [lia|]. eexists. split; [reflexivity|exact Habs].
  - right.
    assert (Hgt : Z.pos px * Z.pos ph < Z.pos pw * Z.pos py).
    { destruct (Z.lt_ge_cases (Z.pos px * Z.pos ph) (Z.pos pw * Z.pos py)) as [|Hge];
        [assumption|].
      assert (Hle : Qle_bool aspect (inject_Z (Z.pos px) / inject_Z (Z.pos py)) = true).
      { apply Qle_bool_iff. rewrite Hasp, Qdiv_inject_pos.
        unfold Qle; simpl. lia. }
      congruence. }
    assert (Hq : (inject_Z (Z.pos px) / aspect == (Z.pos px * Z.pos ph) # pw)%Q).
    { rewrite Hasp. unfold Qdiv, Qinv, Qmult, Qeq, inject_Z; simpl. lia. }
    destruct (round_aspect_spec _
                (fun n => if n =? 0 then 0%Q
                          else Qabs (aspect - inject_Z (Z.pos px) / inject_Z n)%Q)
                _ _ Hq ltac:(lia)) as (_ & Habs & _).
    split; [exact Hgt|]. eexists. split; [reflexivity|exact Habs].
Qed.

(** X12: a picture that does not fit the box is scaled so that it fills
    the box along its limiting side: the height of the result is the maximal
    height when the picture is relatively taller than the box, its width is
    the maximal width otherwise, and a picture with the proportions of the
    box comes out at exactly the size of the box. *)
Theorem thumbnail_fills_box (img : PIL.Image) (x y : Z) :
  0 < PIL.width img -> 0 < PIL.height img -> 0 < x -> 0 < y ->
  ~ (PIL.width img <= x /\ PIL.height img <= y) ->
  (PIL.width img * y <= x * PIL.height img ->
   PIL.height (PIL.thumbnail img (x, y)) = y)
  /\ (x * PIL.height img < PIL.width img * y ->
      PIL.width (PIL.thumbnail img (x, y)) = x)
  /\ (x * PIL.height img = PIL.width img * y ->
      PIL.width (PIL.thumbnail img (x, y)) = x
      /\ PIL.height (PIL.thumbnail img (x, y)) = y).
Proof.
  intros Hw Hh Hx Hy Hbig. unfold PIL.thumbnail.
  destruct (preserve_aspect_ratio_side img x y Hw Hh Hx Hy Hbig)
    as [(Hle & r & -> & Habs) | (Hlt & r & -> & Habs)]; simpl.
  - split; [reflexivity|]. split; [lia|]. intros E. split; [nia|reflexivity].
  - split; [lia|]. split; [reflexivity|]. lia.
Qed.

Lemma thumbnail_fills_box_witness :
  PIL.thumbnail (PIL.mkImage 4000 2000 "RGB") (1280, 640)
  = PIL.mkImage 1280 640 "RGB".
Proof.
  destruct (thumbnail_fills_box (PIL.mkImage 4000 2000 "RGB") 1280 640)
    as (_ & _ & Hsame); [reflexivity | reflexivity | reflexivity | reflexivity
                        | simpl; lia |].
  destruct (Hsame eq_refl) as [H1 H2].
  destruct (PIL.thumbnail (PIL.mkImage 4000 2000 "RGB") (1280, 640)) eqn:E.
  simpl in H1, H2. subst. f_equal.
  apply (f_equal PIL.mode) in E. simpl in E. symmetry. exact E.
Defined.

(** ** The admin previews *)

Lemma escape_clean (c : ascii) (s : string) :
  c = "<"%char \/ c = ">"%char \/ c = ascii_of_nat 34 \/ c = "'"%char ->
  occurs c (escape s) = false.
Proof.
  intros Hc. induction s as [|a s IH]; [reflexivity|].
  cbn [escape].
  destruct (Ascii.eqb_spec a "&"); [rewrite occurs_app, IH;
    destruct Hc as [->|[->|[->| ->]]]; reflexivity|].
  destruct (Ascii.eqb_spec a "<"); [rewrite occurs_app, IH;
    destruct Hc as [->|[->|[->| ->]]]; reflexivity|].
  destruct (Ascii.eqb_spec a ">"); [rewrite occurs_app, IH;
    destruct Hc as [->|[->|[->| ->]]]; reflexivity|].
  destruct (Ascii.eqb_spec a (ascii_of_nat 34)); [rewrite occurs_app, IH;
    destruct Hc as [->|[->|[->| ->]]]; reflexivity|].
  destruct (Ascii.eqb_spec a "'"); [rewrite occurs_app, IH;
    destruct Hc as [->|[->|[->| ->]]]; reflexivity|].
  rewrite occurs_app, IH. cbn [occurs]. rewrite orb_false_r, orb_false_r.
  apply Ascii.eqb_neq. destruct Hc as [->|[->|[->| ->]]]; assumption.
Qed.

(** X13: each admin preview shows the dash for an empty image field
    (missing, [None] or without a name) and otherwise an [img] tag whose
    [src] is the escaped URL of the file; whatever the URL, the text put in
    the attribute holds no double quote, no single quote and no angle
    bracket. *)
Theorem image_preview_escapes (storage_url : string -> string)
    (field : option File) :
  (truthy field = false -> image_preview storage_url field = "—")
  /\ (forall f, field = Some f -> name f <> "" ->
        image_preview storage_url field
        = "<img src=" +:+ dquote +:+ escape (storage_url (name f)) +:+ dquote
          +:+ " style=" +:+ dquote +:+ "max-height:60px;" +:+ dquote +:+ "/>"
        /\ occurs (ascii_of_nat 34) (escape (storage_url (name f))) = false
        /\ occurs "'" (escape (storage_url (name f))) = false
        /\ occurs "<" (escape (storage_url (name f))) = false
        /\ occurs ">" (escape (storage_url (name f))) = false).
Proof.
  split.
  - intros Hf. unfold image_preview. destruct field; [now rewrite Hf|reflexivity].
  - intros f -> Hn. unfold image_preview. rewrite (truthy_named f Hn).
    split; [reflexivity|]. repeat split; apply escape_clean; auto.
Qed.

Lemma image_preview_escapes_witness :
  logo_preview (fun n => "/media/" +:+ n) settings_with_banner = "—"
  /\ occurs (ascii_of_nat 34)
       (escape ("/media/" +:+ name banner_upload)) = false.
Proof.
  split.
  - apply (proj1 (image_preview_escapes (fun n => "/media/" +:+ n)
                    (getattr settings_with_banner "logo"))).
    reflexivity.
  - apply (proj2 (image_preview_escapes (fun n => "/media/" +:+ n)
                    (Some banner_upload)) banner_upload eq_refl).
    discriminate.
Defined.

(** ** File names without an extension *)




(** ** Saving a record again *)




(** ** What the list helpers show *)

Lemma NoDup_pk_objects_all (m : Model) (w : World) :
  List.NoDup (List.map pk (objects_all m w)).
Proof.
  unfold objects_all. pose proof (NoDup_fst_map_to_list (table w m)) as Hnd.
  induction (map_to_list (table w m)) as [|[k r] l IH]; simpl; [constructor|].
  simpl in Hnd. apply NoDup_cons in Hnd as [Hk Hnd].
  constructor; [|now apply IH].
  intros Hin. apply Hk. apply List.in_map_iff in Hin as (o & Ho & Hin).
  apply List.in_map_iff in Hin as ([k' r'] & <- & Hin). simpl in Ho.
  injection Ho as ->. apply list_elem_of_In in Hin.
  apply list_elem_of_fmap. exists (k, r'). auto.
Qed.

Lemma objects_all_exact (m : Model) (w : World) :
  lists_exactly w m (objects_all m w).
Proof.
  split; [apply NoDup_pk_objects_all|]. intros o. split.
  - apply objects_all_sound.
  - intros (k & r & Hr & ->). now apply objects_all_complete.
Qed.

(** X16: the list each helper returns shows the stored records of its
    entity and nothing else, each record once (no key twice), and the helper
    leaves the database as it was. *)
Theorem list_helpers_exact (w : World) :
  exists excursions reviews faqs,
    get_excursion_list w = (Ok excursions, w)
    /\ get_review_list w = (Ok reviews, w)
    /\ get_faq_list w = (Ok faqs, w)
    /\ lists_exactly w Excursion excursions
    /\ lists_exactly w Review reviews
    /\ lists_exactly w FAQ faqs.
Proof.
  eexists _, _, _. repeat (split; [reflexivity|]).
  repeat split; try apply NoDup_pk_objects_all;
    try apply objects_all_sound;
    intros (k & r & Hr & ->); now apply objects_all_complete.
Qed.

Lemma list_helpers_exact_witness :
  exists l,
    get_excursion_list unpublished_world = (Ok l, unpublished_world)
    /\ List.NoDup (List.map pk l)
    /\ In (mkInstance Excursion (Some 7) ∅ false) l.
Proof.
  destruct (list_helpers_exact unpublished_world)
    as (le & lr & lf & He & _ & _ & [Hnd Hex] & _).
  exists le. split; [exact He|]. split; [exact Hnd|].
  apply (proj2 (Hex (mkInstance Excursion (Some 7) ∅ false))).
  exists 7, (mkRow ∅ false). split; reflexivity.
Defined.
